(** * Toxicity-response normalisation: [process_toxicity_data]

    A shallow embedding of [src/llm_response_parsing/llm_response_parsing_regex.py]:
    the two extraction helpers [extract_first_attribute] and
    [extract_second_attribute], the normalisation pass over the four derived
    columns, and the merge of those columns into the input table.

    Conventions of the embedding.
    - A Python [str] is a [string] of the Standard Library: a sequence of
      code points below 256.  On that range [str.lower] and the
      case-insensitive literal matching of [re.IGNORECASE] are the functions
      [lower] and [search_ignorecase] below.
    - A value read by [json.load], and a cell of a [DataFrame], is a [pyval].
    - A raised exception is the [Raise] result; nothing in the routine
      catches one, so a [Raise] is what the whole call ends with. *)

From Stdlib Require Import String Ascii List Bool ZArith NArith Arith Lia.
Import ListNotations.
Local Open Scope string_scope.

Set Implicit Arguments.

(* ================================================================= *)
(** ** Python strings *)

Module PyStr.

(** [str.lower] on one code point: [A-Z] and the Latin-1 capitals
    U+00C0..U+00DE (U+00D7, the multiplication sign, apart) move up by 32. *)
Definition lower_char (c : ascii) : ascii :=
  let n := N_of_ascii c in
  if (((65 <=? n) && (n <=? 90))
      || ((192 <=? n) && (n <=? 222) && negb (n =? 215)))%N
  then ascii_of_N (n + 32) else c.

Fixpoint lower (s : string) : string :=
  match s with
  | EmptyString => EmptyString
  | String c s' => String (lower_char c) (lower s')
  end.

(** The class [\s] of a [str] pattern. *)
Definition is_space (c : ascii) : bool :=
  let n := N_of_ascii c in
  (((9 <=? n) && (n <=? 13)) || ((28 <=? n) && (n <=? 32))
   || (n =? 133) || (n =? 160))%N.

Fixpoint lstrip_space (s : string) : string :=
  match s with
  | String c s' => if is_space c then lstrip_space s' else s
  | EmptyString => EmptyString
  end.

(** [drop_prefix_by eqc p s]: when [p] is a prefix of [s] (characters
    compared with [eqc]), what is left of [s] after it. *)
Fixpoint drop_prefix_by (eqc : ascii -> ascii -> bool) (p s : string)
  : option string :=
  match p, s with
  | EmptyString, _ => Some s
  | String a p', String b s' =>
      if eqc a b then drop_prefix_by eqc p' s' else None
  | String _ _, EmptyString => None
  end.

(** The text after the leftmost occurrence of [p] in [s], if there is one. *)
Fixpoint find_after_by (eqc : ascii -> ascii -> bool) (p s : string)
  : option string :=
  match drop_prefix_by eqc p s with
  | Some rest => Some rest
  | None => match s with
            | EmptyString => None
            | String _ s' => find_after_by eqc p s'
            end
  end.

Definition eq_exact (a b : ascii) : bool := Ascii.eqb a b.
Definition eq_ignorecase (a b : ascii) : bool :=
  Ascii.eqb (lower_char a) (lower_char b).

(** [needle in s] *)
Definition contains (needle s : string) : bool :=
  match find_after_by eq_exact needle s with Some _ => true | None => false end.

(** [re.search(p, s, re.IGNORECASE)] is a match, for a pattern [p] made
    of literal characters only. *)
Definition search_ignorecase (p s : string) : bool :=
  match find_after_by eq_ignorecase p s with Some _ => true | None => false end.

(** [re.sub(r"[chars]", '', s)]: drop every character of [s] that is in
    [chars]. *)
Fixpoint remove_chars (chars : list ascii) (s : string) : string :=
  match s with
  | EmptyString => EmptyString
  | String c s' =>
      if existsb (Ascii.eqb c) chars then remove_chars chars s'
      else String c (remove_chars chars s')
  end.

(** [sep.join(l)] *)
Fixpoint join (sep : string) (l : list string) : string :=
  match l with
  | [] => EmptyString
  | [x] => x
  | x :: rest => x ++ sep ++ join sep rest
  end.

End PyStr.

(* ================================================================= *)
(** ** Python values, exceptions, mappings *)

Module Py.

(** What [json.load] returns and what a table cell holds.  A mapping is
    kept as its items in insertion order, which is the order
    [list(d.keys())] reads. *)
#[warnings="-register-all"] Inductive pyval : Type :=
| PNone
| PBool (b : bool)
| PInt (z : Z)
| PFloat (mantissa exponent : Z)
| PNaN
| PStr (s : string)
| PList (l : list pyval)
| PDict (items : list (string * pyval)).

Inductive exn : Type :=
| IndexError | KeyError | TypeError | ValueError | AttributeError.

Inductive result (A : Type) : Type :=
| Ok (a : A)
| Raise (e : exn).
Arguments Raise {A} e.

Definition bind {A B} (c : result A) (k : A -> result B) : result B :=
  match c with
  | Ok a => k a
  | Raise e => Raise e
  end.

(** [[f(x) for x in l]]: the first exception ends the comprehension. *)
Fixpoint mapM {A B} (f : A -> result B) (l : list A) : result (list B) :=
  match l with
  | [] => Ok []
  | x :: rest =>
      bind (f x) (fun y => bind (mapM f rest) (fun ys => Ok (y :: ys)))
  end.

Definition dict : Type := list (string * pyval).

Fixpoint dict_get (d : dict) (k : string) : option pyval :=
  match d with
  | [] => None
  | (k', v) :: rest => if String.eqb k k' then Some v else dict_get rest k
  end.

(** [k in d] *)
Definition dict_contains (d : dict) (k : string) : bool :=
  match dict_get d k with Some _ => true | None => false end.

(** [list(d.keys())] *)
Definition dict_keys (d : dict) : list string := map fst d.

(** The keys of a Python mapping are pairwise different. *)
Definition dict_wf (d : dict) : Prop := NoDup (dict_keys d).

(** [v[i]] for an integer [i >= 0].  The keys of a mapping read from
    JSON are strings, so an integer is never one of them. *)
Definition getitem_index (v : pyval) (i : nat) : result pyval :=
  match v with
  | PList l =>
      match nth_error l i with Some x => Ok x | None => Raise IndexError end
  | PStr s =>
      match String.get i s with
      | Some c => Ok (PStr (String c EmptyString))
      | None => Raise IndexError
      end
  | PDict _ => Raise KeyError
  | _ => Raise TypeError
  end.

(** [v[k]] for a string [k]. *)
Definition getitem_key (v : pyval) (k : string) : result pyval :=
  match v with
  | PDict d =>
      match dict_get d k with Some x => Ok x | None => Raise KeyError end
  | _ => Raise TypeError
  end.

End Py.
Import Py.

Declare Scope py_scope.
Delimit Scope py_scope with py.
Notation "x <- c ;; k" := (bind c (fun x => k))
  (at level 61, c at next level, right associativity) : py_scope.
Local Open Scope py_scope.

(* ================================================================= *)
(** ** The two extraction helpers *)

Definition dquote : ascii := ascii_of_N 34.

(** [s] between double quotes. *)
Definition quoted (s : string) : string :=
  String dquote (s ++ String dquote EmptyString).

(** The pattern [r'"Is it toxic": "<answer>"']. *)
Definition is_it_toxic_pattern (answer : string) : string :=
  quoted "Is it toxic" ++ ": " ++ quoted answer.

(** [re.search(pattern, text, re.IGNORECASE)] as a truth value; [re.search]
    raises [TypeError] on a [text] that is not a string. *)
Definition re_search_ignorecase (pattern : string) (text : pyval) : result bool :=
  match text with
  | PStr s => Ok (PyStr.search_ignorecase pattern s)
  | _ => Raise TypeError
  end.

Definition assistant_marker : string := "<|assistant|>".

(** [re.search] with [re.DOTALL] for the pattern made of the marker, a
    run of white space and one group that takes every character up to the
    end of the text, line breaks included: [None] without a marker, else
    [group(1)], which is all that follows the leftmost marker and the white
    space after it. *)
Definition re_search_malformed (text : pyval) : result (option string) :=
  match text with
  | PStr s =>
      Ok (option_map PyStr.lstrip_space
            (PyStr.find_after_by PyStr.eq_exact assistant_marker s))
  | _ => Raise TypeError
  end.

(** [conversation[2]["content"]] *)
Definition assistant_content_of (conversation : pyval) : result pyval :=
  turn <- getitem_index conversation 2 ;;
  getitem_key turn "content".

(** Lines 39-61.  [Some v] is [return v]; [None] is control leaving the
    [if] statement without a [return]. *)
Definition first_attribute_nested (assistant_content : pyval)
  : result (option pyval) :=
  match assistant_content with
  | PDict d =>
      if dict_contains d "content" then
        nested_content <- getitem_key assistant_content "content" ;;
        match_no <- re_search_ignorecase (is_it_toxic_pattern "no") nested_content ;;
        match_yes <- re_search_ignorecase (is_it_toxic_pattern "yes") nested_content ;;
        match_malformed <- re_search_malformed nested_content ;;
        if match_no then Ok (Some (PStr "no"))
        else if match_yes then Ok (Some (PStr "yes"))
        else match match_malformed with
             | Some group1 =>
                 let body_response := PyStr.lower group1 in
                 if PyStr.contains "non-toxic" body_response
                    || PyStr.contains "not toxic" body_response
                    || PyStr.contains "not flagged as toxic" body_response
                 then Ok (Some (PStr "no"))
                 else if PyStr.contains "toxic" body_response
                 then Ok (Some (PStr "yes"))
                 else Ok (Some (PStr "none"))
             | None => Ok None
             end
      else Ok None
  | _ => Ok None
  end.

Definition extract_first_attribute (conversation : pyval) : result pyval :=
  assistant_content <- assistant_content_of conversation ;;
  returned <- first_attribute_nested assistant_content ;;
  match returned with
  | Some v => Ok v
  | None =>
      match assistant_content with
      | PDict d =>
          match dict_keys d with
          | first_key :: _ => getitem_key assistant_content first_key
          | [] => Raise IndexError
          end
      | _ => Ok (PStr "none")
      end
  end.

(** Lines 88-101: the stems looked for, each with the category it adds. *)
Definition category_stems : list (string * string) :=
  [ ("insult", "insult"); ("obscen", "obscene"); ("sexual", "sexual_explicit");
    ("identity", "identity_attack"); ("threat", "threat") ].

Definition scan_categories (body_response : string) : list string :=
  flat_map (fun '(stem, category) =>
              if PyStr.contains stem body_response then [category] else [])
           category_stems.

(** Lines 74-103, with the convention of [first_attribute_nested]. *)
Definition second_attribute_nested (assistant_content : pyval)
  : result (option pyval) :=
  match assistant_content with
  | PDict d =>
      if dict_contains d "content" then
        nested_content <- getitem_key assistant_content "content" ;;
        match_no <- re_search_ignorecase (is_it_toxic_pattern "no") nested_content ;;
        match_malformed <- re_search_malformed nested_content ;;
        if match_no then Ok (Some (PStr "none"))
        else match match_malformed with
             | Some group1 =>
                 let body_response := PyStr.lower group1 in
                 if PyStr.contains "non-toxic" body_response
                    || PyStr.contains "not toxic" body_response
                 then Ok (Some (PStr "none"))
                 else Ok (Some (PStr (PyStr.join ", " (scan_categories body_response))))
             | None => Ok None
             end
      else Ok None
  | _ => Ok None
  end.

Definition extract_second_attribute (conversation : pyval) : result pyval :=
  assistant_content <- assistant_content_of conversation ;;
  returned <- second_attribute_nested assistant_content ;;
  match returned with
  | Some v => Ok v
  | None =>
      match assistant_content with
      | PDict d =>
          let keys := dict_keys d in
          match keys with
          | _ :: second_key :: _ => getitem_key assistant_content second_key
          | _ => Ok (PStr "none")
          end
      | _ => Ok (PStr "none")
      end
  end.

(* ================================================================= *)
(** ** Tables *)

Module Frame.

(** A [DataFrame] over the default index [0 .. index_len - 1]: its
    columns in order, each a name and one cell per index entry.  The names
    of a frame are pairwise different ([read_csv] renames a repeated
    header). *)
Record DataFrame : Type := {
  index_len : nat;
  columns : list (string * list pyval)
}.

(** [pd.DataFrame()] *)
Definition empty : DataFrame := {| index_len := 0; columns := [] |}.

(** The column [name] takes [cells]: in place when the frame has it,
    as a new last column otherwise. *)
Fixpoint assign (name : string) (cells : list pyval)
         (cols : list (string * list pyval)) : list (string * list pyval) :=
  match cols with
  | [] => [(name, cells)]
  | (n, old) :: rest =>
      if String.eqb n name then (n, cells) :: rest
      else (n, old) :: assign name cells rest
  end.

(** A frame whose index is empty takes the index of the first non-empty
    value it is given; the columns it has are filled with [NaN]. *)
Definition reindex_columns (n : nat) (cols : list (string * list pyval))
  : list (string * list pyval) :=
  map (fun '(name, _) => (name, repeat PNaN n)) cols.

(** A series over [0 .. length cells - 1] read at the index
    [0 .. n - 1]: the labels it lacks are [NaN], the others are dropped. *)
Definition align (n : nat) (cells : list pyval) : list pyval :=
  firstn n cells ++ repeat PNaN (n - List.length cells).

(** [df[name] = values] for a Python list [values]. *)
Definition setitem_list (df : DataFrame) (name : string) (values : list pyval)
  : result DataFrame :=
  let n := List.length values in
  if Nat.eqb (index_len df) 0 && negb (Nat.eqb n 0) then
    Ok {| index_len := n;
          columns := assign name values (reindex_columns n (columns df)) |}
  else if Nat.eqb n (index_len df) then
    Ok {| index_len := index_len df;
          columns := assign name values (columns df) |}
  else Raise ValueError.

(** [df[name] = series] for a series over the default index. *)
Definition setitem_series (df : DataFrame) (name : string) (series : list pyval)
  : DataFrame :=
  let n := List.length series in
  if Nat.eqb (index_len df) 0 && negb (Nat.eqb n 0) then
    {| index_len := n;
       columns := assign name series (reindex_columns n (columns df)) |}
  else
    {| index_len := index_len df;
       columns := assign name (align (index_len df) series) (columns df) |}.

Fixpoint lookup (name : string) (cols : list (string * list pyval))
  : option (list pyval) :=
  match cols with
  | [] => None
  | (n, cells) :: rest => if String.eqb n name then Some cells else lookup name rest
  end.

(** [df[name]] *)
Definition getitem (df : DataFrame) (name : string) : result (list pyval) :=
  match lookup name (columns df) with
  | Some cells => Ok cells
  | None => Raise KeyError
  end.

End Frame.
Import Frame.

(* ================================================================= *)
(** ** The normalisation pass, cell by cell *)

(** One cell under [.str.lower()]: a cell that is not a string becomes
    [NaN]. *)
Definition str_lower (cell : pyval) : pyval :=
  match cell with
  | PStr s => PStr (PyStr.lower s)
  | _ => PNaN
  end.

(** The characters of the class in line 133: quote, double quote and the
    two square brackets. *)
Definition stripped_chars : list ascii :=
  [ "'"%char; dquote; "["%char; "]"%char ].

(** One cell under [.str.replace(<class>, '', regex=True)]. *)
Definition str_replace (cell : pyval) : pyval :=
  match cell with
  | PStr s => PStr (PyStr.remove_chars stripped_chars s)
  | _ => PNaN
  end.

(** One cell under [Series.replace(mapping)]. *)
Definition replace_values (mapping : list (string * string)) (cell : pyval) : pyval :=
  match cell with
  | PStr s =>
      match find (fun kv => String.eqb (fst kv) s) mapping with
      | Some kv => PStr (snd kv)
      | None => cell
      end
  | _ => cell
  end.

(** One cell under [Series.isin(allowed)]. *)
Definition isin (allowed : list string) (cell : pyval) : bool :=
  match cell with
  | PStr s => existsb (String.eqb s) allowed
  | _ => false
  end.

(** One cell under [df.loc[~df[c].isin(allowed), c] = 'none']. *)
Definition force_none (allowed : list string) (cell : pyval) : pyval :=
  if isin allowed cell then cell else PStr "none".

Definition label_mapping : list (string * string) := [("no", "no"); ("yes", "yes")].
Definition allowed_labels : list string := ["yes"; "no"; "none"].
Definition allowed_categories : list string :=
  ["insult"; "obscene"; "sexual_explicit"; "threat"; "identity_attack"].

(** What lines 131-132 and 138-139 make of one label cell, and lines
    133-134 and 136-137 of one category cell. *)
Definition normalize_label (cell : pyval) : pyval :=
  force_none allowed_labels (replace_values label_mapping (str_lower cell)).

Definition normalize_category (cell : pyval) : pyval :=
  force_none allowed_categories (str_lower (str_replace cell)).

(* ================================================================= *)
(** ** [process_toxicity_data] *)

Section Pipeline.

(** pandas grants the [.str] accessor to a column or refuses it with an
    [AttributeError], by the dtype it infers for the column.  That
    decision is a parameter of the embedding. *)
Variable str_accessor_ok : list pyval -> bool.

(** [series.str] *)
Definition str_accessor (series : list pyval) : result (list pyval) :=
  if str_accessor_ok series then Ok series else Raise AttributeError.

(** [series.str.lower()] *)
Definition series_str_lower (series : list pyval) : result (list pyval) :=
  cells <- str_accessor series ;;
  Ok (map str_lower cells).

(** [series.str.replace(<class>, '', regex=True)] *)
Definition series_str_replace (series : list pyval) : result (list pyval) :=
  cells <- str_accessor series ;;
  Ok (map str_replace cells).

(** Lines 131 and 132, for the column [col]. *)
Definition lower_label_column (toxic_df : DataFrame) (col : string)
  : result DataFrame :=
  series <- getitem toxic_df col ;;
  lowered <- series_str_lower series ;;
  Ok (setitem_series toxic_df col (map (replace_values label_mapping) lowered)).

(** Lines 133 and 134, for the column [col]. *)
Definition clean_category_column (toxic_df : DataFrame) (col : string)
  : result DataFrame :=
  series <- getitem toxic_df col ;;
  stripped <- series_str_replace series ;;
  lowered <- series_str_lower stripped ;;
  Ok (setitem_series toxic_df col lowered).

(** Lines 136 to 139, for the column [col] and its allowed values. *)
Definition force_none_column (allowed : list string) (toxic_df : DataFrame)
           (col : string) : result DataFrame :=
  series <- getitem toxic_df col ;;
  Ok {| index_len := index_len toxic_df;
        columns := assign col (map (force_none allowed) series)
                     (columns toxic_df) |}.

(** Lines 122 to 126. *)
Definition build_toxic_df (first_llama second_llama first_zephyr second_zephyr
                           : list pyval) : result DataFrame :=
  toxic_df <- setitem_list empty "Llama Label" first_llama ;;
  toxic_df <- setitem_list toxic_df "Llama Category" second_llama ;;
  toxic_df <- setitem_list toxic_df "Zephyr Label" first_zephyr ;;
  setitem_list toxic_df "Zephyr Category" second_zephyr.

(** Lines 131 to 139. *)
Definition normalize_toxic_df (toxic_df : DataFrame) : result DataFrame :=
  toxic_df <- lower_label_column toxic_df "Zephyr Label" ;;
  toxic_df <- lower_label_column toxic_df "Llama Label" ;;
  toxic_df <- clean_category_column toxic_df "Zephyr Category" ;;
  toxic_df <- clean_category_column toxic_df "Llama Category" ;;
  toxic_df <- force_none_column allowed_categories toxic_df "Zephyr Category" ;;
  toxic_df <- force_none_column allowed_categories toxic_df "Llama Category" ;;
  toxic_df <- force_none_column allowed_labels toxic_df "Zephyr Label" ;;
  force_none_column allowed_labels toxic_df "Llama Label".

(** Lines 142 to 145. *)
Definition combine (df toxic_df : DataFrame) : result DataFrame :=
  zephyr_label <- getitem toxic_df "Zephyr Label" ;;
  let df := setitem_series df "Zephyr Vanilla_E Label" zephyr_label in
  zephyr_category <- getitem toxic_df "Zephyr Category" ;;
  let df := setitem_series df "Zephyr Vanilla_E Category" zephyr_category in
  llama_label <- getitem toxic_df "Llama Label" ;;
  let df := setitem_series df "Llama Vanilla_E Label" llama_label in
  llama_category <- getitem toxic_df "Llama Category" ;;
  let df := setitem_series df "Llama Vanilla_E Category" llama_category in
  Ok df.

(** Lines 115 to 139: the frame [toxic_df] once the normalisation pass
    is over. *)
Definition toxic_df_of (data_llama data_zephyr : list pyval) : result DataFrame :=
  first_attribute_values_llama <- mapM extract_first_attribute data_llama ;;
  first_attribute_values_zephyr <- mapM extract_first_attribute data_zephyr ;;
  second_attribute_values_llama <- mapM extract_second_attribute data_llama ;;
  second_attribute_values_zephyr <- mapM extract_second_attribute data_zephyr ;;
  toxic_df <- build_toxic_df first_attribute_values_llama
                             second_attribute_values_llama
                             first_attribute_values_zephyr
                             second_attribute_values_zephyr ;;
  normalize_toxic_df toxic_df.

(** The routine, from the three values its files hold to the frame it
    hands to [to_csv]: [df] is what [read_csv] made of the input table,
    [data_llama] and [data_zephyr] are the two JSON arrays. *)
Definition process_toxicity_data (df : DataFrame)
           (data_llama data_zephyr : list pyval) : result DataFrame :=
  toxic_df <- toxic_df_of data_llama data_zephyr ;;
  combine df toxic_df.

(** Lines 151 and 152: the second call reads the table the first one
    wrote, taken here as [read_csv] giving back the frame that [to_csv]
    was handed. *)
Definition two_runs (df : DataFrame)
           (llama_1 zephyr_1 llama_2 zephyr_2 : list pyval) : result DataFrame :=
  df_1 <- process_toxicity_data df llama_1 zephyr_1 ;;
  process_toxicity_data df_1 llama_2 zephyr_2.

(** What [read_csv] with ISO-8859-1 (line 23) makes of the file that
    [to_csv] (line 148, UTF-8) wrote for a frame.  The two encodings differ,
    so a cell with a character above U+007F is not read back as written;
    the function is a parameter of the embedding. *)
Variable reread : DataFrame -> DataFrame.

(** Lines 151 to 154: the four calls of the script, for the variants
    [v_e], [v], [cot] and [cot_e] in that order, each reading the file the
    call before wrote; an argument holds the two JSON arrays of a call. *)
Definition script (df : DataFrame)
           (v_e v cot cot_e : list pyval * list pyval) : result DataFrame :=
  df_1 <- process_toxicity_data df (fst v_e) (snd v_e) ;;
  df_2 <- process_toxicity_data (reread df_1) (fst v) (snd v) ;;
  df_3 <- process_toxicity_data (reread df_2) (fst cot) (snd cot) ;;
  process_toxicity_data (reread df_3) (fst cot_e) (snd cot_e).

End Pipeline.

(* ================================================================= *)
(** ** Vocabulary of the statements *)

(** The closed enumerations of the two kinds of derived column. *)
Definition is_label (cell : pyval) : Prop :=
  In cell [PStr "yes"; PStr "no"; PStr "none"].

Definition is_category (cell : pyval) : Prop :=
  In cell [PStr "none"; PStr "insult"; PStr "obscene"; PStr "sexual_explicit";
           PStr "identity_attack"; PStr "threat"].

(** The names under which lines 142 to 145 store the derived columns. *)
Definition derived_columns : list string :=
  ["Zephyr Vanilla_E Label"; "Zephyr Vanilla_E Category";
   "Llama Vanilla_E Label"; "Llama Vanilla_E Category"].

(** The frame [toxic_df] with its four columns, in the order in which
    lines 123 to 126 create them. *)
Definition toxic_frame (n : nat) (ll lc zl zc : list pyval) : DataFrame :=
  {| index_len := n;
     columns := [("Llama Label", ll); ("Llama Category", lc);
                 ("Zephyr Label", zl); ("Zephyr Category", zc)] |}.

(** The Llama columns when line 125 gives an index to a frame that had
    none: they are filled with [NaN] up to the new index. *)
Definition widen (n : nat) (cells : list pyval) : list pyval :=
  if Nat.eqb (List.length cells) 0 then repeat PNaN n else cells.

(** The four assignments of lines 142 to 145, for given series. *)
Definition merge_columns (df : DataFrame) (zl zc ll lc : list pyval) : DataFrame :=
  setitem_series
    (setitem_series
       (setitem_series
          (setitem_series df "Zephyr Vanilla_E Label" zl)
          "Zephyr Vanilla_E Category" zc)
       "Llama Vanilla_E Label" ll)
    "Llama Vanilla_E Category" lc.

(** The index of the written table, given that of the input table and the
    number [t] of rows of [toxic_df]. *)
Definition derived_index (df : DataFrame) (t : nat) : nat :=
  if Nat.eqb (index_len df) 0 then t else index_len df.


(** A record whose turn sequence has no index 2. *)
Definition lacks_index_2 (conv : pyval) : Prop :=
  exists turns, conv = PList turns /\ List.length turns <= 2.

(** A record whose turn at index 2 has no [content] field. *)
Definition lacks_content (conv : pyval) : Prop :=
  exists turns turn_2,
    conv = PList turns /\ nth_error turns 2 = Some turn_2 /\
    forall items, turn_2 = PDict items -> dict_get items "content" = None.

(** The exceptions of a failed subscript. *)
Definition structural (e : exn) : Prop :=
  e = IndexError \/ e = KeyError \/ e = TypeError.

(* ================================================================= *)
(** ** Sample inputs *)

Definition turn (role : string) (content : pyval) : pyval :=
  PDict [("role", PStr role); ("content", content)].

(** A conversation record of three turns with the given assistant content. *)
Definition conversation (assistant_content : pyval) : pyval :=
  PList [ turn "system" (PStr "You label chat messages.");
          turn "user" (PStr "gg ez");
          turn "assistant" assistant_content ].

(** An assistant content of the malformed kind: a mapping whose [content]
    key holds the raw text. *)
Definition nested (role text : string) : pyval :=
  PDict [("role", PStr role); ("content", PStr text)].

(** The most liberal reading of the parameter: every column has [.str]. *)
Definition any_column (_ : list pyval) : bool := true.

Definition sample_no_toxic : pyval :=
  conversation
    (nested "assistant"
       ("{" ++ quoted "IS IT TOXIC" ++ ": " ++ quoted "No" ++ "} <|assistant|> "
        ++ "toxic insult, obscene sexual identity threat")).

Definition sample_not_toxic : pyval :=
  conversation
    (nested "assistant"
       "<|user|> classify it <|assistant|>
This message is NOT toxic, it is no insult and no threat.").

Definition sample_insult_threat : pyval :=
  conversation
    (nested "assistant"
       "<|assistant|>   The chat is an Insult and reads as a THREAT.").

Definition sample_structured : pyval :=
  conversation (PDict [("toxic", PStr "yes"); ("category", PStr "threat")]).

Definition sample_pattern_miss : pyval :=
  conversation (nested "assistant" "I cannot classify this message.").

Definition sample_pattern_miss_labelled : pyval :=
  conversation
    (PDict [("label", PStr "yes");
            ("content", PStr "I cannot classify this message.")]).

Definition sample_disagree : pyval :=
  conversation
    (nested "assistant" "<|assistant|> Not flagged as toxic: no threat was made.").

Definition sample_yes_threat : pyval :=
  conversation (PDict [("Is it toxic", PStr "Yes"); ("category", PStr "['Threat']")]).

Definition sample_no : pyval :=
  conversation (PDict [("Is it toxic", PStr "No"); ("category", PStr "[]")]).

Definition sample_two_turns : pyval :=
  PList [turn "system" (PStr "You label chat messages."); turn "user" (PStr "gg ez")].

Definition sample_table : DataFrame :=
  {| index_len := 1; columns := [("message", [PStr "gg ez"])] |}.

Definition sample_three_rows : DataFrame :=
  {| index_len := 3;
     columns := [("message", [PStr "gg ez"; PStr "nice"; PStr "bye"])] |}.

Definition sample_three_rows_out : DataFrame :=
  {| index_len := 3;
     columns := [("message", [PStr "gg ez"; PStr "nice"; PStr "bye"]);
                 ("Zephyr Vanilla_E Label", [PStr "none"; PStr "no"; PNaN]);
                 ("Zephyr Vanilla_E Category", [PStr "none"; PStr "none"; PNaN]);
                 ("Llama Vanilla_E Label", [PStr "yes"; PStr "none"; PNaN]);
                 ("Llama Vanilla_E Category", [PStr "threat"; PStr "none"; PNaN])] |}.

Definition sample_plain_text : pyval :=
  conversation (PStr "Yes, it is toxic: a threat.").

Definition sample_nested_list : pyval :=
  conversation
    (PDict [("role", PStr "assistant"); ("content", PList [PStr "toxic"])]).

Definition sample_yes_not_toxic : pyval :=
  conversation
    (nested "assistant"
       ("{" ++ quoted "Is it toxic" ++ ": " ++ quoted "yes" ++ "} <|assistant|> "
        ++ "on reflection it is not toxic")).

Definition sample_yes_only : pyval :=
  conversation
    (nested "assistant"
       ("{" ++ quoted "Is it toxic" ++ ": " ++ quoted "Yes" ++ "}")).

Definition sample_obscenity : pyval :=
  conversation
    (nested "assistant" "<|assistant|> That is an OBSCENITY, clearly toxic.").

Definition sample_toxic_no_stem : pyval :=
  conversation (nested "assistant" "<|assistant|> This is toxic.").

Definition sample_table_out : DataFrame :=
  {| index_len := 1;
     columns := [("message", [PStr "gg ez"]);
                 ("Zephyr Vanilla_E Label", [PStr "no"]);
                 ("Zephyr Vanilla_E Category", [PStr "none"]);
                 ("Llama Vanilla_E Label", [PStr "yes"]);
                 ("Llama Vanilla_E Category", [PStr "threat"])] |}.

(* ================================================================= *)
(** * Properties *)

Unset Implicit Arguments.

(** ** Sanity checks of the string functions *)

Example lower_example :
  PyStr.lower "This Message is NOT Toxic" = "this message is not toxic".
Proof. reflexivity. Qed.

Example marker_example :
  re_search_malformed (PStr "<|user|> hi <|assistant|>
   Toxic.<|assistant|> again")
  = Ok (Some "Toxic.<|assistant|> again").
Proof. reflexivity. Qed.

Example ignorecase_example :
  PyStr.search_ignorecase (is_it_toxic_pattern "no")
    ("{" ++ quoted "is IT toxic" ++ ": " ++ quoted "NO" ++ "}") = true /\
  PyStr.search_ignorecase (is_it_toxic_pattern "no")
    ("{" ++ quoted "is it toxic" ++ ":" ++ quoted "no" ++ "}") = false.
Proof. split; reflexivity. Qed.

Example join_example :
  PyStr.join ", " ["insult"; "threat"] = "insult, threat" /\
  PyStr.join ", " [] = EmptyString.
Proof. split; reflexivity. Qed.

Example strip_example :
  normalize_category (PStr "['Sexual_Explicit']") = PStr "sexual_explicit" /\
  normalize_category (PList [PStr "insult"]) = PStr "none" /\
  normalize_label PNone = PStr "none".
Proof. repeat split; reflexivity. Qed.

(** ** The result monad *)

Lemma bind_ok_inv {A B} (c : result A) (k : A -> result B) (b : B) :
  bind c k = Ok b -> exists a, c = Ok a /\ k a = Ok b.
Proof.
  destruct c as [a|e]; simpl; intros H; [eauto | discriminate].
Qed.

Lemma mapM_ok_inv {A B} (f : A -> result B) (l : list A) (ys : list B) :
  mapM f l = Ok ys -> Forall2 (fun x y => f x = Ok y) l ys.
Proof.
  revert ys; induction l as [|x rest IH]; simpl; intros ys H.
  - injection H as <-. constructor.
  - apply bind_ok_inv in H as (y & Hy & H).
    apply bind_ok_inv in H as (ys' & Hys & H).
    injection H as <-. constructor; auto.
Qed.

Lemma mapM_ok_length {A B} (f : A -> result B) (l : list A) (ys : list B) :
  mapM f l = Ok ys -> List.length ys = List.length l.
Proof.
  intros H. apply mapM_ok_inv in H. symmetry. eapply Forall2_length; eauto.
Qed.

(** A comprehension over a list with an element on which [f] raises
    raises, and with an exception that [f] raised on some element. *)
Lemma mapM_raise {A B} (f : A -> result B) (l : list A) :
  Exists (fun x => exists e, f x = Raise e) l ->
  exists e x, In x l /\ f x = Raise e /\ mapM f l = Raise e.
Proof.
  induction 1 as [x rest (e & He) | x rest _ IH].
  - exists e, x. simpl. rewrite He. auto.
  - simpl. destruct (f x) as [y|e] eqn:Hx.
    + destruct IH as (e & x' & Hin & Hx' & ->). exists e, x'. simpl. auto.
    + exists e, x. simpl. auto.
Qed.

(** ** Python strings *)

Lemma drop_prefix_exact (p s rest : string) :
  PyStr.drop_prefix_by PyStr.eq_exact p s = Some rest <-> s = p ++ rest.
Proof.
  revert s; induction p as [|a p IH]; intros s; simpl.
  - split; [intros [= ->] | intros ->]; reflexivity.
  - destruct s as [|b s]; [split; discriminate|].
    unfold PyStr.eq_exact at 1. destruct (Ascii.eqb_spec a b) as [->|Hne].
    + rewrite IH. split; [intros -> | intros [= ->]]; reflexivity.
    + split; [discriminate | intros [= -> _]; contradiction].
Qed.

Lemma find_after_by_eq (eqc : ascii -> ascii -> bool) (p s : string) :
  PyStr.find_after_by eqc p s =
  match PyStr.drop_prefix_by eqc p s with
  | Some rest => Some rest
  | None => match s with
            | EmptyString => None
            | String _ s' => PyStr.find_after_by eqc p s'
            end
  end.
Proof. destruct s; reflexivity. Qed.

(** [needle in s] holds exactly when [s] splits around a copy of [needle]. *)
Lemma contains_spec (needle s : string) :
  PyStr.contains needle s = true <-> exists pre post, s = pre ++ needle ++ post.
Proof.
  unfold PyStr.contains. split.
  - induction s as [|c s IH]; rewrite find_after_by_eq;
      destruct (PyStr.drop_prefix_by _ needle _) as [rest|] eqn:E;
      try discriminate;
      try (apply drop_prefix_exact in E; intros _; exists EmptyString, rest; exact E).
    intros H. destruct (IH H) as (pre & post & ->).
    exists (String c pre), post. reflexivity.
  - intros (pre & post & ->). induction pre as [|c pre IH]; rewrite find_after_by_eq.
    + assert (E : PyStr.drop_prefix_by PyStr.eq_exact needle (needle ++ post) = Some post)
        by (apply drop_prefix_exact; reflexivity).
      simpl. rewrite E. reflexivity.
    + simpl. destruct (PyStr.drop_prefix_by _ needle _); [reflexivity | exact IH].
Qed.

Lemma drop_prefix_ignorecase (p s rest : string) :
  PyStr.drop_prefix_by PyStr.eq_ignorecase p s = Some rest <->
  exists mid, s = mid ++ rest /\ PyStr.lower mid = PyStr.lower p.
Proof.
  revert s; induction p as [|a p IH]; intros s; simpl.
  - split.
    + intros [= ->]. exists EmptyString. auto.
    + intros (mid & -> & H). destruct mid; [reflexivity | discriminate].
  - destruct s as [|b s].
    + split; [discriminate|]. intros (mid & H & Hl).
      destruct mid; discriminate.
    + unfold PyStr.eq_ignorecase at 1.
      destruct (Ascii.eqb_spec (PyStr.lower_char a) (PyStr.lower_char b)) as [E|E].
      * rewrite IH. split.
        -- intros (mid & -> & Hl). exists (String b mid). simpl.
           rewrite Hl, E. auto.
        -- intros (mid & H & Hl). destruct mid as [|c mid]; [discriminate|].
           simpl in H, Hl. injection H as <- ->. injection Hl as _ Hl. eauto.
      * split; [discriminate|]. intros (mid & H & Hl).
        destruct mid as [|c mid]; [discriminate|].
        simpl in H, Hl. injection H as <- _. injection Hl as Hc _.
        congruence.
Qed.

(** The case-insensitive search finds [p] exactly when [s] splits around
    a text that lower-cases to what [p] lower-cases to. *)
Lemma search_ignorecase_spec (p s : string) :
  PyStr.search_ignorecase p s = true <->
  exists pre mid post, s = pre ++ mid ++ post /\ PyStr.lower mid = PyStr.lower p.
Proof.
  unfold PyStr.search_ignorecase. split.
  - induction s as [|c s IH]; rewrite find_after_by_eq;
      destruct (PyStr.drop_prefix_by _ p _) as [rest|] eqn:E;
      try discriminate;
      try (apply drop_prefix_ignorecase in E as (mid & E & Hl); intros _;
           exists EmptyString, mid, rest; auto).
    intros H. destruct (IH H) as (pre & mid & post & -> & Hl).
    exists (String c pre), mid, post. auto.
  - intros (pre & mid & post & -> & Hl).
    induction pre as [|c pre IH]; rewrite find_after_by_eq.
    + assert (E : PyStr.drop_prefix_by PyStr.eq_ignorecase p (mid ++ post) = Some post)
        by (apply drop_prefix_ignorecase; eauto).
      simpl. rewrite E. reflexivity.
    + simpl. destruct (PyStr.drop_prefix_by _ p _); [reflexivity | exact IH].
Qed.

(** What the marker search captures is the white-space-stripped text after
    a marker: the text splits around that marker. *)
Lemma re_search_malformed_spec (s body : string) :
  re_search_malformed (PStr s) = Ok (Some body) ->
  exists pre rest,
    s = pre ++ assistant_marker ++ rest /\ body = PyStr.lstrip_space rest.
Proof.
  unfold re_search_malformed. intros [= H].
  destruct (PyStr.find_after_by _ _ s) as [rest|] eqn:E; [|discriminate].
  injection H as <-. revert E. generalize assistant_marker as m. intros m.
  induction s as [|c s IH]; rewrite find_after_by_eq;
    destruct (PyStr.drop_prefix_by _ m _) as [r|] eqn:D; try discriminate;
    try (intros [= ->]; apply drop_prefix_exact in D;
         exists EmptyString, rest; auto).
  intros H. destruct (IH H) as (pre & rest' & -> & Hb).
  exists (String c pre), rest'. auto.
Qed.

Lemma re_search_malformed_none (s : string) :
  re_search_malformed (PStr s) = Ok None <->
  PyStr.contains assistant_marker s = false.
Proof.
  unfold re_search_malformed, PyStr.contains.
  destruct (PyStr.find_after_by _ _ s); simpl; split; congruence.
Qed.

Lemma contains_suffix (a b s : string) :
  PyStr.contains (a ++ b) s = true -> PyStr.contains b s = true.
Proof.
  rewrite !contains_spec. intros (pre & post & ->).
  exists (pre ++ a), post.
  clear. induction pre as [|c pre IH]; simpl.
  - induction a as [|c a IH]; simpl; congruence.
  - congruence.
Qed.

(** ** The extraction helpers on a malformed-nested content *)

Section Nested.

Variables (conv : pyval) (d : dict) (s : string).
Hypothesis Hcontent : assistant_content_of conv = Ok (PDict d).
Hypothesis Hnested : dict_get d "content" = Some (PStr s).

Let match_no := PyStr.search_ignorecase (is_it_toxic_pattern "no") s.
Let match_yes := PyStr.search_ignorecase (is_it_toxic_pattern "yes") s.
Let match_malformed :=
  option_map PyStr.lstrip_space
    (PyStr.find_after_by PyStr.eq_exact assistant_marker s).

Lemma first_attribute_nested_eq :
  first_attribute_nested (PDict d) =
  Ok (if match_no then Some (PStr "no")
      else if match_yes then Some (PStr "yes")
      else match match_malformed with
           | Some group1 =>
               let body := PyStr.lower group1 in
               if PyStr.contains "non-toxic" body
                  || PyStr.contains "not toxic" body
                  || PyStr.contains "not flagged as toxic" body
               then Some (PStr "no")
               else if PyStr.contains "toxic" body then Some (PStr "yes")
               else Some (PStr "none")
           | None => None
           end).
Proof.
  unfold first_attribute_nested, dict_contains, getitem_key.
  rewrite Hnested. unfold re_search_ignorecase, re_search_malformed, bind.
  fold match_no match_yes match_malformed.
  destruct match_no, match_yes, match_malformed as [g|]; try reflexivity.
  cbv zeta.
  destruct (_ || _ || _); [reflexivity|].
  destruct (PyStr.contains "toxic" _); reflexivity.
Qed.

Lemma second_attribute_nested_eq :
  second_attribute_nested (PDict d) =
  Ok (if match_no then Some (PStr "none")
      else match match_malformed with
           | Some group1 =>
               let body := PyStr.lower group1 in
               if PyStr.contains "non-toxic" body
                  || PyStr.contains "not toxic" body
               then Some (PStr "none")
               else Some (PStr (PyStr.join ", " (scan_categories body)))
           | None => None
           end).
Proof.
  unfold second_attribute_nested, dict_contains, getitem_key.
  rewrite Hnested. unfold re_search_ignorecase, re_search_malformed, bind.
  fold match_no match_malformed.
  destruct match_no, match_malformed as [g|]; try reflexivity.
  cbv zeta. destruct (_ || _); reflexivity.
Qed.

Lemma extract_first_attribute_nested_eq :
  extract_first_attribute conv =
  (returned <- first_attribute_nested (PDict d) ;;
   match returned with
   | Some v => Ok v
   | None => match dict_keys d with
             | first_key :: _ => getitem_key (PDict d) first_key
             | [] => Raise IndexError
             end
   end).
Proof. unfold extract_first_attribute. rewrite Hcontent. reflexivity. Qed.

Lemma extract_second_attribute_nested_eq :
  extract_second_attribute conv =
  (returned <- second_attribute_nested (PDict d) ;;
   match returned with
   | Some v => Ok v
   | None => match dict_keys d with
             | _ :: second_key :: _ => getitem_key (PDict d) second_key
             | _ => Ok (PStr "none")
             end
   end).
Proof. unfold extract_second_attribute. rewrite Hcontent. reflexivity. Qed.

End Nested.

(** A key that is in the mapping makes the mapping non-empty, and the
    value read at the first key is the first item's. *)
Lemma getitem_first_key (k : string) (v : pyval) (rest : dict) :
  getitem_key (PDict ((k, v) :: rest)) k = Ok v.
Proof. simpl. rewrite String.eqb_refl. reflexivity. Qed.

Lemma getitem_second_key (k1 k2 : string) (v1 v2 : pyval) (rest : dict) :
  dict_wf ((k1, v1) :: (k2, v2) :: rest) ->
  getitem_key (PDict ((k1, v1) :: (k2, v2) :: rest)) k2 = Ok v2.
Proof.
  unfold dict_wf. simpl. intros H. inversion H as [|? ? Hnotin _]; subst.
  destruct (String.eqb_spec k2 k1) as [->|_].
  - exfalso. apply Hnotin. left. reflexivity.
  - rewrite String.eqb_refl. reflexivity.
Qed.

(** ** Extraction: the claims *)

(** C1.  When the assistant content is a mapping whose [content] key holds
    a string in which the pattern ["Is it toxic": "no"] is found, in any
    case, the label extracted is [no] and the category extracted is [none],
    whatever else the string holds. *)
Theorem no_toxic_short_circuit (conv : pyval) (d : dict) (s : string) :
  assistant_content_of conv = Ok (PDict d) ->
  dict_get d "content" = Some (PStr s) ->
  PyStr.search_ignorecase (is_it_toxic_pattern "no") s = true ->
  extract_first_attribute conv = Ok (PStr "no") /\
  extract_second_attribute conv = Ok (PStr "none").
Proof.
  intros Hc Hn Hno. split.
  - rewrite (extract_first_attribute_nested_eq conv d Hc),
      (first_attribute_nested_eq d s Hn), Hno. reflexivity.
  - rewrite (extract_second_attribute_nested_eq conv d Hc),
      (second_attribute_nested_eq d s Hn), Hno. reflexivity.
Qed.

Lemma no_toxic_short_circuit_witness :
  extract_first_attribute sample_no_toxic = Ok (PStr "no") /\
  extract_second_attribute sample_no_toxic = Ok (PStr "none").
Proof.
  eapply no_toxic_short_circuit; reflexivity.
Defined.

(** C2.  When neither ["Is it toxic"] pattern is found, a role marker is,
    and the lower-cased text after it contains [not toxic] (so it contains
    [toxic] too), the label is [no] and the category is [none]: the negative
    phrases are looked for before the bare [toxic] and before the stems. *)
Theorem non_toxic_phrase_precedence (conv : pyval) (d : dict) (s body : string) :
  assistant_content_of conv = Ok (PDict d) ->
  dict_get d "content" = Some (PStr s) ->
  PyStr.search_ignorecase (is_it_toxic_pattern "no") s = false ->
  PyStr.search_ignorecase (is_it_toxic_pattern "yes") s = false ->
  re_search_malformed (PStr s) = Ok (Some body) ->
  PyStr.contains "not toxic" (PyStr.lower body) = true ->
  PyStr.contains "toxic" (PyStr.lower body) = true /\
  extract_first_attribute conv = Ok (PStr "no") /\
  extract_second_attribute conv = Ok (PStr "none").
Proof.
  intros Hc Hn Hno Hyes Hm Hnot. injection Hm as Hm. split; [|split].
  - apply (contains_suffix "not " "toxic"). exact Hnot.
  - rewrite (extract_first_attribute_nested_eq conv d Hc),
      (first_attribute_nested_eq d s Hn), Hno, Hyes, Hm.
    cbv zeta. rewrite Hnot, orb_true_r. reflexivity.
  - rewrite (extract_second_attribute_nested_eq conv d Hc),
      (second_attribute_nested_eq d s Hn), Hno, Hm.
    cbv zeta. rewrite Hnot, orb_true_r. reflexivity.
Qed.

Lemma non_toxic_phrase_precedence_witness :
  PyStr.contains "toxic"
    (PyStr.lower "This message is NOT toxic, it is no insult and no threat.") = true /\
  extract_first_attribute sample_not_toxic = Ok (PStr "no") /\
  extract_second_attribute sample_not_toxic = Ok (PStr "none").
Proof.
  eapply non_toxic_phrase_precedence; reflexivity.
Defined.

(** C3.  In the role-marker branch, a body with the stems [insult] and
    [threat], none of [obscen], [sexual], [identity], and no negative
    phrase gives the category ["insult, threat"]; the normalisation pass,
    which keeps a category only when it is one of the five names, turns that
    value into [none]. *)
Theorem keyword_union_extraction (conv : pyval) (d : dict) (s body : string) :
  assistant_content_of conv = Ok (PDict d) ->
  dict_get d "content" = Some (PStr s) ->
  PyStr.search_ignorecase (is_it_toxic_pattern "no") s = false ->
  re_search_malformed (PStr s) = Ok (Some body) ->
  PyStr.contains "non-toxic" (PyStr.lower body) = false ->
  PyStr.contains "not toxic" (PyStr.lower body) = false ->
  PyStr.contains "insult" (PyStr.lower body) = true ->
  PyStr.contains "threat" (PyStr.lower body) = true ->
  PyStr.contains "obscen" (PyStr.lower body) = false ->
  PyStr.contains "sexual" (PyStr.lower body) = false ->
  PyStr.contains "identity" (PyStr.lower body) = false ->
  extract_second_attribute conv = Ok (PStr "insult, threat") /\
  normalize_category (PStr "insult, threat") = PStr "none".
Proof.
  intros Hc Hn Hno Hm Hnon Hnot Hi Ht Ho Hs Hid. injection Hm as Hm.
  split; [|reflexivity].
  rewrite (extract_second_attribute_nested_eq conv d Hc),
    (second_attribute_nested_eq d s Hn), Hno, Hm.
  cbv zeta. rewrite Hnon, Hnot.
  unfold scan_categories, category_stems, flat_map.
  rewrite Hi, Ht, Ho, Hs, Hid. reflexivity.
Qed.

Lemma keyword_union_extraction_witness :
  extract_second_attribute sample_insult_threat = Ok (PStr "insult, threat") /\
  normalize_category (PStr "insult, threat") = PStr "none".
Proof.
  eapply keyword_union_extraction; reflexivity.
Defined.

(** C5.  When the assistant content is a mapping without a [content] key,
    the label extracted is the value at its first key, in insertion order,
    and the category extracted is the value at its second key when it has
    two keys or more, [none] otherwise; the mapping
    [{"toxic": "yes", "category": "threat"}] gives [yes] and [threat]. *)
Theorem structured_path_extraction (conv : pyval) (d : dict) :
  assistant_content_of conv = Ok (PDict d) ->
  dict_wf d ->
  dict_get d "content" = None ->
  (forall k v rest, d = (k, v) :: rest -> extract_first_attribute conv = Ok v) /\
  extract_second_attribute conv =
    Ok (match d with _ :: (_, v2) :: _ => v2 | _ => PStr "none" end) /\
  (d = [("toxic", PStr "yes"); ("category", PStr "threat")] ->
   extract_first_attribute conv = Ok (PStr "yes") /\
   extract_second_attribute conv = Ok (PStr "threat")).
Proof.
  intros Hc Hwf Hn.
  assert (Hfirst : forall k v rest, d = (k, v) :: rest ->
                                    extract_first_attribute conv = Ok v).
  { intros k v rest ->.
    rewrite (extract_first_attribute_nested_eq conv _ Hc).
    unfold first_attribute_nested, dict_contains. rewrite Hn.
    cbn [bind dict_keys map fst]. apply getitem_first_key. }
  assert (Hsecond : extract_second_attribute conv =
            Ok (match d with _ :: (_, v2) :: _ => v2 | _ => PStr "none" end)).
  { rewrite (extract_second_attribute_nested_eq conv d Hc).
    unfold second_attribute_nested, dict_contains. rewrite Hn.
    cbn [bind]. destruct d as [|[k1 v1] [|[k2 v2] rest]]; try reflexivity.
    cbn [dict_keys map fst]. apply getitem_second_key. exact Hwf. }
  split; [exact Hfirst|]. split; [exact Hsecond|].
  intros ->. split; [eapply Hfirst; reflexivity | exact Hsecond].
Qed.

Lemma sample_structured_wf :
  dict_wf [("toxic", PStr "yes"); ("category", PStr "threat")].
Proof.
  unfold dict_wf. simpl. repeat constructor; simpl; intuition discriminate.
Defined.

Lemma structured_path_extraction_witness :
  extract_first_attribute sample_structured = Ok (PStr "yes") /\
  extract_second_attribute sample_structured = Ok (PStr "threat").
Proof.
  apply (structured_path_extraction sample_structured
           [("toxic", PStr "yes"); ("category", PStr "threat")]);
    [reflexivity | exact sample_structured_wf | reflexivity | reflexivity].
Defined.

(** C6, as amended.  When the assistant content is a mapping whose
    [content] key holds a string in which neither ["Is it toxic"] pattern
    nor the role marker is found, control leaves the first [if] statement
    and reaches the second one, which holds for every mapping: the label
    extracted is the value at the first key of the mapping. *)
Theorem pattern_miss_falls_to_first_key (conv : pyval) (d : dict) (s : string) :
  assistant_content_of conv = Ok (PDict d) ->
  dict_get d "content" = Some (PStr s) ->
  PyStr.search_ignorecase (is_it_toxic_pattern "no") s = false ->
  PyStr.search_ignorecase (is_it_toxic_pattern "yes") s = false ->
  re_search_malformed (PStr s) = Ok None ->
  exists k v rest, d = (k, v) :: rest /\ extract_first_attribute conv = Ok v.
Proof.
  intros Hc Hn Hno Hyes Hm. injection Hm as Hm.
  destruct d as [|[k v] rest]; [discriminate|].
  exists k, v, rest. split; [reflexivity|].
  rewrite (extract_first_attribute_nested_eq conv _ Hc),
    (first_attribute_nested_eq _ s Hn), Hno, Hyes, Hm.
  cbn [bind dict_keys map fst]. apply getitem_first_key.
Qed.

Lemma pattern_miss_falls_to_first_key_witness :
  exists k v rest,
    [("role", PStr "assistant"); ("content", PStr "I cannot classify this message.")]
    = (k, v) :: rest /\
    extract_first_attribute sample_pattern_miss = Ok v.
Proof.
  apply (pattern_miss_falls_to_first_key sample_pattern_miss _
           "I cannot classify this message."); reflexivity.
Defined.

(** C6, as stated, fails: on such a record the helper does return a
    value, here the string at the key [role]; and with a label stored at
    the first key it returns [yes]. *)
Lemma pattern_miss_returns_a_value :
  (assistant_content_of sample_pattern_miss
   = Ok (nested "assistant" "I cannot classify this message.") /\
   dict_get [("role", PStr "assistant");
             ("content", PStr "I cannot classify this message.")] "content"
   = Some (PStr "I cannot classify this message.") /\
   PyStr.search_ignorecase (is_it_toxic_pattern "no")
     "I cannot classify this message." = false /\
   PyStr.search_ignorecase (is_it_toxic_pattern "yes")
     "I cannot classify this message." = false /\
   re_search_malformed (PStr "I cannot classify this message.") = Ok None) /\
  extract_first_attribute sample_pattern_miss = Ok (PStr "assistant") /\
  extract_first_attribute sample_pattern_miss <> Ok PNone /\
  extract_first_attribute sample_pattern_miss_labelled = Ok (PStr "yes").
Proof.
  repeat split; try reflexivity. discriminate.
Qed.

(** C10.  The two helpers can disagree: there is a record that reaches
    the role-marker branch, whose body holds [not flagged as toxic] and the
    stem [threat] but neither [non-toxic] nor [not toxic], for which the
    label extracted is [no] and the category extracted is [threat]; the row
    written for it carries the label [no] with the category [threat]. *)
Theorem label_and_category_disagree :
  exists (conv : pyval) (d : dict) (s body : string),
    assistant_content_of conv = Ok (PDict d) /\
    dict_get d "content" = Some (PStr s) /\
    PyStr.search_ignorecase (is_it_toxic_pattern "no") s = false /\
    PyStr.search_ignorecase (is_it_toxic_pattern "yes") s = false /\
    re_search_malformed (PStr s) = Ok (Some body) /\
    PyStr.contains "not flagged as toxic" (PyStr.lower body) = true /\
    PyStr.contains "threat" (PyStr.lower body) = true /\
    PyStr.contains "non-toxic" (PyStr.lower body) = false /\
    PyStr.contains "not toxic" (PyStr.lower body) = false /\
    extract_first_attribute conv = Ok (PStr "no") /\
    extract_second_attribute conv = Ok (PStr "threat") /\
    exists out,
      process_toxicity_data any_column
        {| index_len := 1; columns := [("message", [PStr "gg ez"])] |}
        [conv] [conv] = Ok out /\
      getitem out "Llama Vanilla_E Label" = Ok [PStr "no"] /\
      getitem out "Llama Vanilla_E Category" = Ok [PStr "threat"].
Proof.
  exists sample_disagree,
    [("role", PStr "assistant");
     ("content", PStr "<|assistant|> Not flagged as toxic: no threat was made.")],
    "<|assistant|> Not flagged as toxic: no threat was made.",
    "Not flagged as toxic: no threat was made.".
  repeat (split; [reflexivity|]).
  eexists. repeat split; vm_compute; reflexivity.
Qed.

(** ** The normalisation pass on one cell *)

Lemma force_none_allowed (allowed : list string) (cell : pyval) :
  In (force_none allowed cell) (PStr "none" :: map PStr allowed).
Proof.
  unfold force_none. destruct (isin allowed cell) eqn:E; [|left; reflexivity].
  right. destruct cell; try discriminate. simpl in E.
  apply existsb_exists in E as (x & Hin & Heq).
  apply String.eqb_eq in Heq. subst. apply in_map. exact Hin.
Qed.

Lemma normalize_label_is_label (cell : pyval) : is_label (normalize_label cell).
Proof.
  unfold is_label, normalize_label.
  pose proof (force_none_allowed allowed_labels
                (replace_values label_mapping (str_lower cell))) as H.
  simpl in H. simpl. intuition.
Qed.

Lemma normalize_category_is_category (cell : pyval) :
  is_category (normalize_category cell).
Proof.
  unfold is_category, normalize_category.
  pose proof (force_none_allowed allowed_categories
                (str_lower (str_replace cell))) as H.
  simpl in H. simpl. intuition.
Qed.

(** The replacement of line 131 changes no cell. *)
Lemma replace_values_label_mapping (cell : pyval) :
  replace_values label_mapping cell = cell.
Proof.
  destruct cell; try reflexivity.
  unfold replace_values, label_mapping. cbn [find fst snd].
  destruct (String.eqb_spec "no" s) as [<-|_]; [reflexivity|].
  destruct (String.eqb_spec "yes" s) as [<-|_]; reflexivity.
Qed.

(** C9.  The normalisation pass leaves a normalised value as it is: a
    label among [yes], [no], [none] and a category that is [none] or one of
    the five names come back unchanged from lower-casing, stripping and the
    allowed-set check. *)
Theorem normalization_idempotent (label category : string) :
  In label ["yes"; "no"; "none"] ->
  In category ["none"; "insult"; "obscene"; "sexual_explicit";
               "identity_attack"; "threat"] ->
  normalize_label (PStr label) = PStr label /\
  normalize_category (PStr category) = PStr category.
Proof.
  intros Hl Hc. split.
  - simpl in Hl. decompose [or] Hl; subst; try reflexivity; contradiction.
  - simpl in Hc. decompose [or] Hc; subst; try reflexivity; contradiction.
Qed.

Lemma normalization_idempotent_witness :
  normalize_label (PStr "yes") = PStr "yes" /\
  normalize_category (PStr "sexual_explicit") = PStr "sexual_explicit".
Proof.
  apply normalization_idempotent; simpl; auto.
Defined.

(** Normalising twice is normalising once, for every cell. *)
Lemma normalize_label_twice (cell : pyval) :
  normalize_label (normalize_label cell) = normalize_label cell.
Proof.
  pose proof (normalize_label_is_label cell) as H. unfold is_label in H.
  simpl in H. decompose [or] H; try contradiction;
    match goal with E : _ = normalize_label cell |- _ => rewrite <- E end;
    reflexivity.
Qed.

Lemma normalize_category_twice (cell : pyval) :
  normalize_category (normalize_category cell) = normalize_category cell.
Proof.
  pose proof (normalize_category_is_category cell) as H. unfold is_category in H.
  simpl in H. decompose [or] H; try contradiction;
    match goal with E : _ = normalize_category cell |- _ => rewrite <- E end;
    reflexivity.
Qed.

(** ** The frame [toxic_df] *)

Lemma widen_length (n : nat) (cells : list pyval) :
  List.length cells = n \/ List.length cells = 0 -> List.length (widen n cells) = n.
Proof.
  unfold widen. destruct cells as [|c cells]; simpl.
  - intros _. apply repeat_length.
  - intros [H|H]; [exact H | discriminate].
Qed.

Lemma build_toxic_df_eq (fl sl fz sz : list pyval) :
  List.length sl = List.length fl ->
  List.length sz = List.length fz ->
  build_toxic_df fl sl fz sz =
  if Nat.eqb (List.length fl) (List.length fz) || Nat.eqb (List.length fl) 0
  then Ok (toxic_frame (List.length fz)
             (widen (List.length fz) fl) (widen (List.length fz) sl) fz sz)
  else Raise ValueError.
Proof.
  intros Hs Hz. unfold build_toxic_df, setitem_list, toxic_frame, widen, empty.
  destruct fl as [|x fl], sl as [|y sl]; try discriminate;
    destruct fz as [|u fz], sz as [|v sz]; try discriminate;
    cbn; try (injection Hs as Hs); try (injection Hz as Hz);
    try rewrite Hs; try rewrite Hz; rewrite ?Nat.eqb_refl; cbn;
    try reflexivity.
  rewrite (Nat.eqb_sym (List.length fz)).
  destruct (Nat.eqb_spec (List.length fl) (List.length fz)) as [E|E];
    [|reflexivity].
  cbn. rewrite E, Nat.eqb_refl. reflexivity.
Qed.

Lemma align_same_length (n : nat) (cells : list pyval) :
  List.length cells = n -> align n cells = cells.
Proof.
  intros <-. unfold align. rewrite firstn_all, Nat.sub_diag. apply app_nil_r.
Qed.


Lemma setitem_series_same_length (df : DataFrame) (name : string) (series : list pyval) :
  List.length series = index_len df ->
  setitem_series df name series =
  {| index_len := index_len df; columns := assign name series (columns df) |}.
Proof.
  intros H. unfold setitem_series. rewrite H.
  destruct (Nat.eqb_spec (index_len df) 0) as [E|E]; cbn.
  - rewrite align_same_length by exact H. reflexivity.
  - rewrite align_same_length by exact H. reflexivity.
Qed.

Section ColumnSteps.

Variable ok : list pyval -> bool.
Variables (df : DataFrame) (col : string) (series : list pyval).
Hypothesis Hget : getitem df col = Ok series.
Hypothesis Hlen : List.length series = index_len df.

Lemma lower_label_column_eq :
  lower_label_column ok df col =
  if ok series
  then Ok {| index_len := index_len df;
             columns := assign col
                          (map (replace_values label_mapping) (map str_lower series))
                          (columns df) |}
  else Raise AttributeError.
Proof.
  unfold lower_label_column, series_str_lower, str_accessor.
  rewrite Hget. cbn [bind]. destruct (ok series); cbn [bind]; [|reflexivity].
  rewrite setitem_series_same_length by (rewrite !length_map; exact Hlen).
  reflexivity.
Qed.

Lemma clean_category_column_eq :
  clean_category_column ok df col =
  if ok series && ok (map str_replace series)
  then Ok {| index_len := index_len df;
             columns := assign col (map str_lower (map str_replace series))
                          (columns df) |}
  else Raise AttributeError.
Proof.
  unfold clean_category_column, series_str_lower, series_str_replace, str_accessor.
  rewrite Hget. cbn [bind]. destruct (ok series); cbn [bind andb]; [|reflexivity].
  destruct (ok (map str_replace series)); cbn [bind]; [|reflexivity].
  rewrite setitem_series_same_length by (rewrite !length_map; exact Hlen).
  reflexivity.
Qed.

Lemma force_none_column_eq (allowed : list string) :
  force_none_column allowed df col =
  Ok {| index_len := index_len df;
        columns := assign col (map (force_none allowed) series) (columns df) |}.
Proof. unfold force_none_column. rewrite Hget. reflexivity. Qed.

End ColumnSteps.

(** Computes the lookups and assignments by column name in a frame whose
    names are given. *)
Ltac frame_cbn :=
  cbn [bind assign lookup getitem columns index_len
       String.eqb Ascii.eqb Bool.eqb andb].

Lemma normalize_toxic_df_eq (ok : list pyval -> bool) (n : nat)
      (ll lc zl zc : list pyval) :
  List.length ll = n -> List.length lc = n ->
  List.length zl = n -> List.length zc = n ->
  normalize_toxic_df ok (toxic_frame n ll lc zl zc) =
  if ok zl && ok ll && (ok zc && ok (map str_replace zc))
     && (ok lc && ok (map str_replace lc))
  then Ok (toxic_frame n (map normalize_label ll) (map normalize_category lc)
             (map normalize_label zl) (map normalize_category zc))
  else Raise AttributeError.
Proof.
  intros Hll Hlc Hzl Hzc. unfold normalize_toxic_df, toxic_frame.
  rewrite (lower_label_column_eq ok _ "Zephyr Label" zl)
    by (frame_cbn; first [reflexivity | exact Hzl]).
  destruct (ok zl); [|reflexivity]. frame_cbn.
  rewrite (lower_label_column_eq ok _ "Llama Label" ll)
    by (frame_cbn; first [reflexivity | exact Hll]).
  destruct (ok ll); [|reflexivity]. frame_cbn.
  rewrite (clean_category_column_eq ok _ "Zephyr Category" zc)
    by (frame_cbn; first [reflexivity | exact Hzc]).
  destruct (ok zc && ok (map str_replace zc)); [|reflexivity]. frame_cbn.
  rewrite (clean_category_column_eq ok _ "Llama Category" lc)
    by (frame_cbn; first [reflexivity | exact Hlc]).
  destruct (ok lc && ok (map str_replace lc)); [|reflexivity]. frame_cbn.
  rewrite (force_none_column_eq _ "Zephyr Category" _) by (frame_cbn; reflexivity).
  frame_cbn.
  rewrite (force_none_column_eq _ "Llama Category" _) by (frame_cbn; reflexivity).
  frame_cbn.
  rewrite (force_none_column_eq _ "Zephyr Label" _) by (frame_cbn; reflexivity).
  frame_cbn.
  rewrite (force_none_column_eq _ "Llama Label" _) by (frame_cbn; reflexivity).
  frame_cbn.
  rewrite !map_map. reflexivity.
Qed.

Lemma combine_eq (df : DataFrame) (n : nat) (ll lc zl zc : list pyval) :
  combine df (toxic_frame n ll lc zl zc) = Ok (merge_columns df zl zc ll lc).
Proof. reflexivity. Qed.

(** What the extraction and the normalisation pass leave in [toxic_df]
    when they end well. *)
Lemma toxic_df_of_ok_inv (ok : list pyval -> bool) (toxic_df : DataFrame)
      (data_llama data_zephyr : list pyval) :
  toxic_df_of ok data_llama data_zephyr = Ok toxic_df ->
  exists fl sl fz sz,
    mapM extract_first_attribute data_llama = Ok fl /\
    mapM extract_second_attribute data_llama = Ok sl /\
    mapM extract_first_attribute data_zephyr = Ok fz /\
    mapM extract_second_attribute data_zephyr = Ok sz /\
    (List.length data_llama = List.length data_zephyr \/ data_llama = []) /\
    toxic_df = toxic_frame (List.length data_zephyr)
                 (map normalize_label (widen (List.length data_zephyr) fl))
                 (map normalize_category (widen (List.length data_zephyr) sl))
                 (map normalize_label fz) (map normalize_category sz).
Proof.
  unfold toxic_df_of. intros H.
  apply bind_ok_inv in H as (fl & Hfl & H).
  apply bind_ok_inv in H as (fz & Hfz & H).
  apply bind_ok_inv in H as (sl & Hsl & H).
  apply bind_ok_inv in H as (sz & Hsz & H).
  apply bind_ok_inv in H as (toxic & Hbuild & Hnorm).
  pose proof (mapM_ok_length _ _ _ Hfl) as Lfl.
  pose proof (mapM_ok_length _ _ _ Hfz) as Lfz.
  pose proof (mapM_ok_length _ _ _ Hsl) as Lsl.
  pose proof (mapM_ok_length _ _ _ Hsz) as Lsz.
  rewrite build_toxic_df_eq in Hbuild by congruence.
  destruct (_ || _) eqn:Hshape in Hbuild; [|discriminate].
  injection Hbuild as <-.
  assert (Hw : forall l, List.length l = List.length data_llama ->
                         List.length (widen (List.length fz) l) = List.length fz).
  { intros l Hl. apply widen_length. rewrite Hl, <- Lfl.
    apply orb_true_iff in Hshape as [E|E]; apply Nat.eqb_eq in E; auto. }
  rewrite normalize_toxic_df_eq in Hnorm
    by first [reflexivity | apply Hw; congruence | congruence].
  destruct (_ && _) in Hnorm; [|discriminate]. injection Hnorm as <-.
  exists fl, sl, fz, sz. repeat (split; [assumption|]). split.
  - apply orb_true_iff in Hshape as [E|E]; apply Nat.eqb_eq in E.
    + left. congruence.
    + right. rewrite Lfl in E. destruct data_llama; [reflexivity|discriminate].
  - rewrite Lfz. reflexivity.
Qed.

(** A run on which extraction succeeds, the two arrays are as long as
    each other and pandas grants [.str] on every column ends well. *)
Lemma toxic_df_of_ok (ok : list pyval -> bool) (data_llama data_zephyr : list pyval)
      (fl sl fz sz : list pyval) :
  mapM extract_first_attribute data_llama = Ok fl ->
  mapM extract_second_attribute data_llama = Ok sl ->
  mapM extract_first_attribute data_zephyr = Ok fz ->
  mapM extract_second_attribute data_zephyr = Ok sz ->
  List.length data_llama = List.length data_zephyr ->
  ok fz = true -> ok fl = true ->
  ok sz = true -> ok (map str_replace sz) = true ->
  ok sl = true -> ok (map str_replace sl) = true ->
  toxic_df_of ok data_llama data_zephyr =
  Ok (toxic_frame (List.length data_zephyr)
        (map normalize_label fl) (map normalize_category sl)
        (map normalize_label fz) (map normalize_category sz)).
Proof.
  intros Hfl Hsl Hfz Hsz Hlen Hzl Hll Hzc Hzc' Hlc Hlc'. unfold toxic_df_of.
  rewrite Hfl, Hfz, Hsl, Hsz. cbn [bind].
  pose proof (mapM_ok_length _ _ _ Hfl) as Lfl.
  pose proof (mapM_ok_length _ _ _ Hfz) as Lfz.
  pose proof (mapM_ok_length _ _ _ Hsl) as Lsl.
  pose proof (mapM_ok_length _ _ _ Hsz) as Lsz.
  rewrite build_toxic_df_eq by congruence.
  replace (Nat.eqb (List.length fl) (List.length fz)) with true
    by (symmetry; apply Nat.eqb_eq; congruence).
  cbn [orb bind].
  assert (Hw : forall l, List.length l = List.length fz ->
                         widen (List.length fz) l = l).
  { intros l Hl. unfold widen. destruct l; [|reflexivity].
    rewrite <- Hl. reflexivity. }
  rewrite !Hw by congruence.
  rewrite normalize_toxic_df_eq by congruence.
  rewrite Hzl, Hll, Hzc, Hzc', Hlc, Hlc', Lfz. reflexivity.
Qed.

(** ** Assignment of the derived columns to the table *)

Lemma lookup_assign_same (name : string) (cells : list pyval)
      (cols : list (string * list pyval)) :
  lookup name (assign name cells cols) = Some cells.
Proof.
  induction cols as [|[n old] rest IH]; cbn [assign lookup].
  - rewrite String.eqb_refl. reflexivity.
  - destruct (String.eqb n name) eqn:E; cbn [lookup]; rewrite E; auto.
Qed.

Lemma lookup_assign_other (name name' : string) (cells : list pyval)
      (cols : list (string * list pyval)) :
  String.eqb name name' = false ->
  lookup name' (assign name cells cols) = lookup name' cols.
Proof.
  intros Hne. induction cols as [|[n old] rest IH]; cbn [assign lookup].
  - rewrite Hne. reflexivity.
  - destruct (String.eqb_spec n name) as [->|E]; cbn [lookup].
    + rewrite Hne. reflexivity.
    + rewrite IH. reflexivity.
Qed.

Lemma assign_fresh (name : string) (cells : list pyval)
      (cols : list (string * list pyval)) :
  lookup name cols = None -> assign name cells cols = (cols ++ [(name, cells)])%list.
Proof.
  induction cols as [|[n old] rest IH]; cbn [assign lookup app]; [reflexivity|].
  destruct (String.eqb n name); [discriminate|]. intros H. rewrite IH by exact H.
  reflexivity.
Qed.

Lemma lookup_app_fresh (name : string) (cols more : list (string * list pyval)) :
  lookup name cols = None -> lookup name (cols ++ more)%list = lookup name more.
Proof.
  induction cols as [|[n old] rest IH]; cbn [lookup app]; [reflexivity|].
  destruct (String.eqb n name); [discriminate | exact IH].
Qed.

Lemma setitem_series_stable (df : DataFrame) (name : string) (series : list pyval) :
  index_len df <> 0 \/ series = [] ->
  setitem_series df name series =
  {| index_len := index_len df;
     columns := assign name (align (index_len df) series) (columns df) |}.
Proof.
  unfold setitem_series. intros [H| ->].
  - apply Nat.eqb_neq in H. rewrite H. reflexivity.
  - cbn [List.length Nat.eqb negb]. rewrite andb_false_r. reflexivity.
Qed.

Lemma setitem_series_index (df : DataFrame) (name : string) (series : list pyval) :
  index_len (setitem_series df name series) =
  if Nat.eqb (index_len df) 0 then List.length series else index_len df.
Proof.
  unfold setitem_series.
  destruct (Nat.eqb_spec (index_len df) 0) as [E|E]; cbn [andb].
  - destruct series; cbn; [exact E | reflexivity].
  - reflexivity.
Qed.

Lemma setitem_series_lookup_same (df : DataFrame) (name : string)
      (series : list pyval) :
  lookup name (columns (setitem_series df name series)) =
  Some (align (index_len (setitem_series df name series)) series).
Proof.
  unfold setitem_series.
  destruct (Nat.eqb (index_len df) 0 && negb (Nat.eqb (List.length series) 0));
    cbn [columns index_len]; rewrite lookup_assign_same.
  - rewrite align_same_length by reflexivity. reflexivity.
  - reflexivity.
Qed.

Lemma merge_columns_lookup (df : DataFrame) (t : nat) (zl zc ll lc : list pyval) :
  List.length zl = t -> List.length zc = t ->
  List.length ll = t -> List.length lc = t ->
  let out := merge_columns df zl zc ll lc in
  let n := derived_index df t in
  index_len out = n /\
  getitem out "Zephyr Vanilla_E Label" = Ok (align n zl) /\
  getitem out "Zephyr Vanilla_E Category" = Ok (align n zc) /\
  getitem out "Llama Vanilla_E Label" = Ok (align n ll) /\
  getitem out "Llama Vanilla_E Category" = Ok (align n lc).
Proof.
  intros Hzl Hzc Hll Hlc. cbv zeta. unfold merge_columns, derived_index.
  set (df1 := setitem_series df "Zephyr Vanilla_E Label" zl).
  assert (H1 : index_len df1 = derived_index df t).
  { unfold df1, derived_index. rewrite setitem_series_index, Hzl. reflexivity. }
  assert (L1 : lookup "Zephyr Vanilla_E Label" (columns df1)
               = Some (align (derived_index df t) zl)).
  { unfold df1. rewrite setitem_series_lookup_same. fold df1. rewrite H1.
    reflexivity. }
  assert (Hst : forall s : list pyval,
             List.length s = t -> index_len df1 <> 0 \/ s = []).
  { intros s Hs. rewrite H1. unfold derived_index.
    destruct (Nat.eqb_spec (index_len df) 0) as [E|E]; [|left; exact E].
    destruct s as [|x s]; [right; reflexivity|]. left. rewrite <- Hs. discriminate. }
  fold (derived_index df t). revert H1 L1 Hst. generalize df1 as d.
  generalize (derived_index df t) as n. intros n d H1 L1 Hst.
  rewrite (setitem_series_stable d "Zephyr Vanilla_E Category" zc) by auto.
  rewrite (setitem_series_stable _ "Llama Vanilla_E Label" ll)
    by (cbn [index_len]; auto).
  rewrite (setitem_series_stable _ "Llama Vanilla_E Category" lc)
    by (cbn [index_len]; auto).
  cbn [index_len columns].
  unfold getitem. cbn [columns]. rewrite H1.
  repeat split;
    repeat (rewrite lookup_assign_other by reflexivity);
    first [rewrite lookup_assign_same | rewrite L1]; reflexivity.
Qed.

(** ** Closed enumeration *)






(** ** Structural errors *)

Lemma mapM_raise_inv {A B} (f : A -> result B) (l : list A) (e : exn) :
  mapM f l = Raise e -> exists x, In x l /\ f x = Raise e.
Proof.
  induction l as [|x rest IH]; simpl; [discriminate|].
  destruct (f x) as [y|e'] eqn:Hx; simpl.
  - destruct (mapM f rest) as [ys|e'']; simpl; [discriminate|].
    intros [= ->]. destruct (IH eq_refl) as (x' & Hin & Hx').
    exists x'. auto.
  - intros [= ->]. exists x. auto.
Qed.

Lemma mapM_ok_each {A B} (f : A -> result B) (l : list A) (ys : list B) (x : A) :
  mapM f l = Ok ys -> In x l -> exists y, f x = Ok y.
Proof.
  intros H. apply mapM_ok_inv in H.
  induction H as [|x' y l' ys' Hxy _ IH]; intros [].
  - subst. eauto.
  - auto.
Qed.

Lemma assistant_content_of_raise (conv : pyval) :
  lacks_index_2 conv \/ lacks_content conv ->
  exists e, assistant_content_of conv = Raise e.
Proof.
  unfold assistant_content_of.
  intros [(turns & -> & Hlen) | (turns & turn_2 & -> & Hnth & Hget)];
    cbn [getitem_index].
  - apply nth_error_None in Hlen. rewrite Hlen. eexists. reflexivity.
  - rewrite Hnth. cbn [bind].
    destruct turn_2; cbn [getitem_key]; try (eexists; reflexivity).
    rewrite (Hget _ eq_refl). eexists. reflexivity.
Qed.

Lemma extract_first_attribute_raise (conv : pyval) :
  lacks_index_2 conv \/ lacks_content conv ->
  exists e, extract_first_attribute conv = Raise e.
Proof.
  intros H. destruct (assistant_content_of_raise conv H) as (e & He).
  exists e. unfold extract_first_attribute. rewrite He. reflexivity.
Qed.

Lemma bind_raise_inv {A B} (c : result A) (k : A -> result B) (e : exn) :
  bind c k = Raise e -> c = Raise e \/ exists a, c = Ok a /\ k a = Raise e.
Proof.
  destruct c as [a|e']; simpl; intros H; [right; eauto | left; congruence].
Qed.

Create HintDb structural.

Lemma getitem_index_structural (v : pyval) (i : nat) (e : exn) :
  getitem_index v i = Raise e -> structural e.
Proof.
  unfold structural. destruct v; cbn [getitem_index];
    try (intros [= <-]; auto).
  - destruct (String.get i s); intros [= <-]; auto.
  - destruct (nth_error l i); intros [= <-]; auto.
Qed.

Lemma getitem_key_structural (v : pyval) (k : string) (e : exn) :
  getitem_key v k = Raise e -> structural e.
Proof.
  unfold structural. destruct v; cbn [getitem_key]; try (intros [= <-]; auto).
  destruct (dict_get items k); intros [= <-]; auto.
Qed.

Lemma re_search_ignorecase_structural (p : string) (text : pyval) (e : exn) :
  re_search_ignorecase p text = Raise e -> structural e.
Proof.
  unfold structural. destruct text; cbn; intros [= <-]; auto.
Qed.

Lemma re_search_malformed_structural (text : pyval) (e : exn) :
  re_search_malformed text = Raise e -> structural e.
Proof.
  unfold structural. destruct text; cbn; intros [= <-]; auto.
Qed.

#[local] Hint Resolve getitem_index_structural getitem_key_structural
  re_search_ignorecase_structural re_search_malformed_structural : structural.

(** Splits a raising sequence of binds into the step that raised. *)
Ltac raised H :=
  repeat match type of H with
         | bind _ _ = Raise _ =>
             apply bind_raise_inv in H as [H | (? & _ & H)];
             [solve [eauto with structural] | cbv beta in H]
         end.

Lemma assistant_content_of_structural (conv : pyval) (e : exn) :
  assistant_content_of conv = Raise e -> structural e.
Proof.
  unfold assistant_content_of. intros H. raised H. eauto with structural.
Qed.

Lemma first_attribute_nested_structural (content : pyval) (e : exn) :
  first_attribute_nested content = Raise e -> structural e.
Proof.
  unfold first_attribute_nested. intros H.
  destruct content; try discriminate.
  destruct (dict_contains items "content"); [|discriminate].
  raised H.
  repeat match type of H with
         | context [if ?b then _ else _] => destruct b
         | context [match ?x with Some _ => _ | None => _ end] => destruct x
         end; discriminate.
Qed.

Lemma second_attribute_nested_structural (content : pyval) (e : exn) :
  second_attribute_nested content = Raise e -> structural e.
Proof.
  unfold second_attribute_nested. intros H.
  destruct content; try discriminate.
  destruct (dict_contains items "content"); [|discriminate].
  raised H.
  repeat match type of H with
         | context [if ?b then _ else _] => destruct b
         | context [match ?x with Some _ => _ | None => _ end] => destruct x
         end; discriminate.
Qed.

#[local] Hint Resolve assistant_content_of_structural
  first_attribute_nested_structural second_attribute_nested_structural
  : structural.

(** Every exception the first helper raises is a structural-access one. *)
Lemma extract_first_attribute_structural (conv : pyval) (e : exn) :
  extract_first_attribute conv = Raise e -> structural e.
Proof.
  unfold extract_first_attribute. intros H. raised H.
  destruct x0 as [v|]; [discriminate|].
  destruct x; try discriminate.
  destruct (dict_keys items); [injection H as <-; unfold structural; auto|].
  eauto with structural.
Qed.

Lemma extract_second_attribute_structural (conv : pyval) (e : exn) :
  extract_second_attribute conv = Raise e -> structural e.
Proof.
  unfold extract_second_attribute. intros H. raised H.
  destruct x0 as [v|]; [discriminate|].
  destruct x; try discriminate. cbv zeta in H.
  destruct (dict_keys items) as [|k1 [|k2 ks]]; try discriminate.
  eauto with structural.
Qed.

(** C7.  A batch in which some record of either array has no index 2, or
    has at index 2 a turn without a [content] field, ends with an
    exception of a failed subscript: nothing is written, and no record is
    skipped to go on with the others. *)
Theorem structural_error_aborts_batch (ok : list pyval -> bool) (df : DataFrame)
        (data_llama data_zephyr : list pyval) :
  Exists (fun conv => lacks_index_2 conv \/ lacks_content conv)
         (data_llama ++ data_zephyr)%list ->
  exists e, structural e /\
            process_toxicity_data ok df data_llama data_zephyr = Raise e.
Proof.
  intros Hbad. unfold process_toxicity_data, toxic_df_of.
  destruct (mapM extract_first_attribute data_llama) as [fl|e] eqn:Hfl.
  - apply Exists_app in Hbad as [Hbad|Hbad].
    + exfalso. apply Exists_exists in Hbad as (conv & Hin & Hconv).
      apply extract_first_attribute_raise in Hconv as (e & He).
      destruct (mapM_ok_each _ _ _ _ Hfl Hin) as (v & Hv). congruence.
    + assert (Hex : Exists (fun x => exists e, extract_first_attribute x = Raise e)
                      data_zephyr).
      { eapply Exists_impl; [|exact Hbad]. intros conv.
        apply extract_first_attribute_raise. }
      apply mapM_raise in Hex as (e & conv & _ & Hconv & Hz).
      exists e. split; [eapply extract_first_attribute_structural; eauto|].
      cbn [bind]. rewrite Hz. reflexivity.
  - exists e. split; [|reflexivity].
    apply mapM_raise_inv in Hfl as (conv & _ & Hconv).
    eapply extract_first_attribute_structural; eauto.
Qed.

(** ** Row correspondence *)

(** What a run that ends well has written. *)
Lemma process_toxicity_data_ok_inv (ok : list pyval -> bool) (df out : DataFrame)
      (data_llama data_zephyr : list pyval) :
  process_toxicity_data ok df data_llama data_zephyr = Ok out ->
  exists fl sl fz sz,
    mapM extract_first_attribute data_llama = Ok fl /\
    mapM extract_second_attribute data_llama = Ok sl /\
    mapM extract_first_attribute data_zephyr = Ok fz /\
    mapM extract_second_attribute data_zephyr = Ok sz /\
    (List.length data_llama = List.length data_zephyr \/ data_llama = []) /\
    out = merge_columns df
            (map normalize_label fz) (map normalize_category sz)
            (map normalize_label (widen (List.length data_zephyr) fl))
            (map normalize_category (widen (List.length data_zephyr) sl)).
Proof.
  unfold process_toxicity_data. intros H.
  apply bind_ok_inv in H as (toxic_df & Htoxic & Hcombine).
  apply toxic_df_of_ok_inv in Htoxic
    as (fl & sl & fz & sz & Hfl & Hsl & Hfz & Hsz & Hshape & ->).
  rewrite combine_eq in Hcombine. injection Hcombine as <-.
  exists fl, sl, fz, sz. auto 10.
Qed.

(** X15.  A run ends well, and writes the merged table, whenever extraction
    succeeds on every record, the two arrays are as long as each other and
    pandas grants [.str] on the six columns on which lines 131 to 134 call
    it: the two raw label columns, the two raw category columns and the two
    category columns once stripped. *)
Lemma process_toxicity_data_ok (ok : list pyval -> bool) (df : DataFrame)
      (data_llama data_zephyr fl sl fz sz : list pyval) :
  mapM extract_first_attribute data_llama = Ok fl ->
  mapM extract_second_attribute data_llama = Ok sl ->
  mapM extract_first_attribute data_zephyr = Ok fz ->
  mapM extract_second_attribute data_zephyr = Ok sz ->
  List.length data_llama = List.length data_zephyr ->
  ok fz = true -> ok fl = true ->
  ok sz = true -> ok (map str_replace sz) = true ->
  ok sl = true -> ok (map str_replace sl) = true ->
  process_toxicity_data ok df data_llama data_zephyr =
  Ok (merge_columns df
        (map normalize_label fz) (map normalize_category sz)
        (map normalize_label fl) (map normalize_category sl)).
Proof.
  intros Hfl Hsl Hfz Hsz Hlen Hzl Hll Hzc Hzc' Hlc Hlc'.
  unfold process_toxicity_data.
  rewrite (toxic_df_of_ok ok _ _ fl sl fz sz) by assumption.
  cbn [bind]. apply combine_eq.
Qed.

Lemma widen_same_length (n : nat) (cells : list pyval) :
  List.length cells = n -> widen n cells = cells.
Proof.
  intros <-. unfold widen. destruct cells; reflexivity.
Qed.

(** X16.  On a table that has none of the four derived names, with as many rows
    as each array has records, a run that ends well keeps the index and
    every column of the table and appends the four derived columns; the
    cell of row [i] in each is the normalised value extracted from record
    [i] of the model's array. *)
Lemma row_correspondence_fresh_columns (ok : list pyval -> bool)
      (df out : DataFrame) (data_llama data_zephyr : list pyval) :
  List.length data_llama = index_len df ->
  List.length data_zephyr = index_len df ->
  (forall name, In name derived_columns -> lookup name (columns df) = None) ->
  process_toxicity_data ok df data_llama data_zephyr = Ok out ->
  exists fl sl fz sz,
    Forall2 (fun conv v => extract_first_attribute conv = Ok v) data_llama fl /\
    Forall2 (fun conv v => extract_second_attribute conv = Ok v) data_llama sl /\
    Forall2 (fun conv v => extract_first_attribute conv = Ok v) data_zephyr fz /\
    Forall2 (fun conv v => extract_second_attribute conv = Ok v) data_zephyr sz /\
    out = {| index_len := index_len df;
             columns := (columns df ++
                         [("Zephyr Vanilla_E Label", map normalize_label fz);
                          ("Zephyr Vanilla_E Category", map normalize_category sz);
                          ("Llama Vanilla_E Label", map normalize_label fl);
                          ("Llama Vanilla_E Category", map normalize_category sl)])%list
          |}.
Proof.
  intros Hll Hzz Hfresh H.
  apply process_toxicity_data_ok_inv in H
    as (fl & sl & fz & sz & Hfl & Hsl & Hfz & Hsz & _ & ->).
  pose proof (mapM_ok_length _ _ _ Hfl) as Lfl.
  pose proof (mapM_ok_length _ _ _ Hfz) as Lfz.
  pose proof (mapM_ok_length _ _ _ Hsl) as Lsl.
  pose proof (mapM_ok_length _ _ _ Hsz) as Lsz.
  exists fl, sl, fz, sz. repeat (split; [apply mapM_ok_inv; assumption|]).
  rewrite !widen_same_length by congruence.
  unfold merge_columns.
  rewrite (setitem_series_same_length df) by (rewrite length_map; congruence).
  rewrite (setitem_series_same_length _ "Zephyr Vanilla_E Category")
    by (rewrite length_map; cbn [index_len]; congruence).
  rewrite (setitem_series_same_length _ "Llama Vanilla_E Label")
    by (rewrite length_map; cbn [index_len]; congruence).
  rewrite (setitem_series_same_length _ "Llama Vanilla_E Category")
    by (rewrite length_map; cbn [index_len]; congruence).
  cbn [index_len columns]. f_equal.
  pose proof (Hfresh "Zephyr Vanilla_E Label") as F1.
  pose proof (Hfresh "Zephyr Vanilla_E Category") as F2.
  pose proof (Hfresh "Llama Vanilla_E Label") as F3.
  pose proof (Hfresh "Llama Vanilla_E Category") as F4.
  unfold derived_columns in F1, F2, F3, F4.
  rewrite (assign_fresh "Zephyr Vanilla_E Label") by (apply F1; simpl; auto).
  rewrite (assign_fresh "Zephyr Vanilla_E Category")
    by (rewrite lookup_app_fresh; [reflexivity | apply F2; simpl; auto]).
  rewrite <- app_assoc. cbn [app].
  rewrite (assign_fresh "Llama Vanilla_E Label")
    by (rewrite lookup_app_fresh; [reflexivity | apply F3; simpl; auto]).
  rewrite <- app_assoc. cbn [app].
  rewrite (assign_fresh "Llama Vanilla_E Category")
    by (rewrite lookup_app_fresh; [reflexivity | apply F4; simpl; auto 6]).
  rewrite <- app_assoc. reflexivity.
Qed.

(** C8, at the table the second call of the script reads.  The first run
    on a one-row table appends the four derived columns, [yes] and
    [threat]; the run that reads that table appends nothing and stores its
    own values, [no] and [none], over those the row had. *)
Theorem second_run_overwrites_first :
  process_toxicity_data any_column sample_table
    [sample_yes_threat] [sample_yes_threat]
  = Ok {| index_len := 1;
          columns := [("message", [PStr "gg ez"]);
                      ("Zephyr Vanilla_E Label", [PStr "yes"]);
                      ("Zephyr Vanilla_E Category", [PStr "threat"]);
                      ("Llama Vanilla_E Label", [PStr "yes"]);
                      ("Llama Vanilla_E Category", [PStr "threat"])] |} /\
  two_runs any_column sample_table
    [sample_yes_threat] [sample_yes_threat] [sample_no] [sample_no]
  = Ok {| index_len := 1;
          columns := [("message", [PStr "gg ez"]);
                      ("Zephyr Vanilla_E Label", [PStr "no"]);
                      ("Zephyr Vanilla_E Category", [PStr "none"]);
                      ("Llama Vanilla_E Label", [PStr "no"]);
                      ("Llama Vanilla_E Category", [PStr "none"])] |}.
Proof. split; vm_compute; reflexivity. Qed.



Lemma structural_error_aborts_batch_witness :
  exists e, structural e /\
            process_toxicity_data any_column sample_table
              [sample_structured] [sample_two_turns] = Raise e.
Proof.
  apply structural_error_aborts_batch.
  apply Exists_cons_tl, Exists_cons_hd. left.
  exists [turn "system" (PStr "You label chat messages."); turn "user" (PStr "gg ez")].
  split; [reflexivity | simpl; lia].
Defined.

(** ** Further properties of the extraction helpers *)

(** X1.  When the assistant content is not a mapping (a string, a list, a
    number, [None]), both helpers return [none], whatever the content says. *)
Theorem non_mapping_content_gives_none (conv v : pyval) :
  assistant_content_of conv = Ok v ->
  (forall d, v <> PDict d) ->
  extract_first_attribute conv = Ok (PStr "none") /\
  extract_second_attribute conv = Ok (PStr "none").
Proof.
  intros Hc Hv. unfold extract_first_attribute, extract_second_attribute.
  rewrite Hc. cbn [bind].
  destruct v; try (split; reflexivity). exfalso. eapply Hv. reflexivity.
Qed.

Lemma non_mapping_content_gives_none_witness :
  extract_first_attribute sample_plain_text = Ok (PStr "none") /\
  extract_second_attribute sample_plain_text = Ok (PStr "none").
Proof.
  apply (non_mapping_content_gives_none sample_plain_text
           (PStr "Yes, it is toxic: a threat."));
    [reflexivity | discriminate].
Defined.

(** X2.  When the assistant content is a mapping whose [content] key holds a
    value that is not a string, both helpers raise [TypeError]: [re.search]
    is given that value. *)
Theorem nested_content_not_a_string (conv : pyval) (d : dict) (v : pyval) :
  assistant_content_of conv = Ok (PDict d) ->
  dict_get d "content" = Some v ->
  (forall s, v <> PStr s) ->
  extract_first_attribute conv = Raise TypeError /\
  extract_second_attribute conv = Raise TypeError.
Proof.
  intros Hc Hn Hv.
  rewrite (extract_first_attribute_nested_eq conv d Hc),
    (extract_second_attribute_nested_eq conv d Hc).
  unfold first_attribute_nested, second_attribute_nested, dict_contains, getitem_key.
  rewrite Hn. cbn [bind].
  destruct v; try (split; reflexivity). exfalso. eapply Hv. reflexivity.
Qed.

Lemma nested_content_not_a_string_witness :
  extract_first_attribute sample_nested_list = Raise TypeError /\
  extract_second_attribute sample_nested_list = Raise TypeError.
Proof.
  apply (nested_content_not_a_string sample_nested_list
           [("role", PStr "assistant"); ("content", PList [PStr "toxic"])]
           (PList [PStr "toxic"]));
    [reflexivity | reflexivity | discriminate].
Defined.

(** X3.  On an empty mapping the label helper raises [IndexError] (line 64
    reads the first of no keys) while the category helper returns [none]. *)
Theorem empty_mapping_content (conv : pyval) :
  assistant_content_of conv = Ok (PDict []) ->
  extract_first_attribute conv = Raise IndexError /\
  extract_second_attribute conv = Ok (PStr "none").
Proof.
  intros Hc. unfold extract_first_attribute, extract_second_attribute.
  rewrite Hc. split; reflexivity.
Qed.

Lemma empty_mapping_content_witness :
  extract_first_attribute (conversation (PDict [])) = Raise IndexError /\
  extract_second_attribute (conversation (PDict [])) = Ok (PStr "none").
Proof. apply empty_mapping_content. reflexivity. Defined.

(** X4.  When the ["Is it toxic": "no"] pattern is not found and the
    ["Is it toxic": "yes"] pattern is, the label is [yes], whatever
    follows a role marker. *)
Theorem yes_pattern_gives_yes (conv : pyval) (d : dict) (s : string) :
  assistant_content_of conv = Ok (PDict d) ->
  dict_get d "content" = Some (PStr s) ->
  PyStr.search_ignorecase (is_it_toxic_pattern "no") s = false ->
  PyStr.search_ignorecase (is_it_toxic_pattern "yes") s = true ->
  extract_first_attribute conv = Ok (PStr "yes").
Proof.
  intros Hc Hn Hno Hyes.
  rewrite (extract_first_attribute_nested_eq conv d Hc),
    (first_attribute_nested_eq d s Hn), Hno, Hyes. reflexivity.
Qed.

Lemma yes_pattern_gives_yes_witness :
  extract_first_attribute sample_yes_not_toxic = Ok (PStr "yes").
Proof.
  eapply yes_pattern_gives_yes; reflexivity.
Defined.

(** X5.  The category helper never looks for the [yes] pattern: without the
    [no] pattern and without a role marker it leaves the nested branch and
    returns the value at the second key of the mapping, [none] when there
    is one key only. *)
Theorem category_pattern_miss_falls_to_second_key
        (conv : pyval) (d : dict) (s : string) :
  assistant_content_of conv = Ok (PDict d) ->
  dict_wf d ->
  dict_get d "content" = Some (PStr s) ->
  PyStr.search_ignorecase (is_it_toxic_pattern "no") s = false ->
  re_search_malformed (PStr s) = Ok None ->
  extract_second_attribute conv =
    Ok (match d with _ :: (_, v2) :: _ => v2 | _ => PStr "none" end).
Proof.
  intros Hc Hwf Hn Hno Hm. injection Hm as Hm.
  rewrite (extract_second_attribute_nested_eq conv d Hc),
    (second_attribute_nested_eq d s Hn), Hno, Hm.
  cbn [bind]. destruct d as [|[k1 v1] [|[k2 v2] rest]]; try reflexivity.
  cbn [dict_keys map fst]. apply getitem_second_key. exact Hwf.
Qed.

Lemma sample_nested_wf (text : string) :
  dict_wf [("role", PStr "assistant"); ("content", PStr text)].
Proof.
  unfold dict_wf. simpl. repeat constructor; simpl; intuition discriminate.
Defined.

Lemma category_pattern_miss_falls_to_second_key_witness :
  extract_second_attribute sample_yes_only
  = Ok (PStr ("{" ++ quoted "Is it toxic" ++ ": " ++ quoted "Yes" ++ "}")).
Proof.
  apply (category_pattern_miss_falls_to_second_key sample_yes_only
           [("role", PStr "assistant");
            ("content",
             PStr ("{" ++ quoted "Is it toxic" ++ ": " ++ quoted "Yes" ++ "}"))]
           ("{" ++ quoted "Is it toxic" ++ ": " ++ quoted "Yes" ++ "}"));
    [reflexivity | apply sample_nested_wf | reflexivity | reflexivity | reflexivity].
Defined.

(** X6.  In the role-marker branch the label is one of [no], [yes], [none],
    and it is [none] exactly when the lower-cased body does not contain
    [toxic]. *)
Theorem marker_label_none_iff_no_toxic (conv : pyval) (d : dict) (s body : string) :
  assistant_content_of conv = Ok (PDict d) ->
  dict_get d "content" = Some (PStr s) ->
  PyStr.search_ignorecase (is_it_toxic_pattern "no") s = false ->
  PyStr.search_ignorecase (is_it_toxic_pattern "yes") s = false ->
  re_search_malformed (PStr s) = Ok (Some body) ->
  (exists label, extract_first_attribute conv = Ok (PStr label) /\
                 In label ["no"; "yes"; "none"]) /\
  (extract_first_attribute conv = Ok (PStr "none") <->
   PyStr.contains "toxic" (PyStr.lower body) = false).
Proof.
  intros Hc Hn Hno Hyes Hm. injection Hm as Hm.
  rewrite (extract_first_attribute_nested_eq conv d Hc),
    (first_attribute_nested_eq d s Hn), Hno, Hyes, Hm.
  cbv zeta. cbn [bind].
  destruct (PyStr.contains "non-toxic" (PyStr.lower body)) eqn:E1.
  { apply (contains_suffix "non-" "toxic") in E1. rewrite E1. cbn [orb].
    split; [exists "no"; simpl; auto | split; discriminate]. }
  destruct (PyStr.contains "not toxic" (PyStr.lower body)) eqn:E2.
  { apply (contains_suffix "not " "toxic") in E2. rewrite E2. cbn [orb].
    split; [exists "no"; simpl; auto | split; discriminate]. }
  destruct (PyStr.contains "not flagged as toxic" (PyStr.lower body)) eqn:E3.
  { apply (contains_suffix "not flagged as " "toxic") in E3. rewrite E3. cbn [orb].
    split; [exists "no"; simpl; auto | split; discriminate]. }
  cbn [orb]. destruct (PyStr.contains "toxic" (PyStr.lower body)).
  - split; [exists "yes"; simpl; auto | split; discriminate].
  - split; [exists "none"; simpl; auto | split; reflexivity].
Qed.

Lemma marker_label_none_iff_no_toxic_witness :
  (exists label, extract_first_attribute sample_insult_threat = Ok (PStr label) /\
                 In label ["no"; "yes"; "none"]) /\
  (extract_first_attribute sample_insult_threat = Ok (PStr "none") <->
   PyStr.contains "toxic"
     (PyStr.lower "The chat is an Insult and reads as a THREAT.") = false).
Proof.
  eapply marker_label_none_iff_no_toxic; reflexivity.
Defined.

(** X7.  In the role-marker branch without a negative phrase, the category
    that the normalisation pass keeps is the one found when exactly one
    stem is in the body, and [none] when no stem or several stems are. *)
Theorem marker_category_after_normalization
        (conv : pyval) (d : dict) (s body : string) :
  assistant_content_of conv = Ok (PDict d) ->
  dict_get d "content" = Some (PStr s) ->
  PyStr.search_ignorecase (is_it_toxic_pattern "no") s = false ->
  re_search_malformed (PStr s) = Ok (Some body) ->
  PyStr.contains "non-toxic" (PyStr.lower body) = false ->
  PyStr.contains "not toxic" (PyStr.lower body) = false ->
  exists raw,
    extract_second_attribute conv = Ok (PStr raw) /\
    normalize_category (PStr raw) =
      match scan_categories (PyStr.lower body) with
      | [category] => PStr category
      | _ => PStr "none"
      end.
Proof.
  intros Hc Hn Hno Hm Hnon Hnot. injection Hm as Hm.
  rewrite (extract_second_attribute_nested_eq conv d Hc),
    (second_attribute_nested_eq d s Hn), Hno, Hm.
  cbv zeta. rewrite Hnon, Hnot. cbn [orb bind].
  eexists. split; [reflexivity|].
  unfold scan_categories, category_stems, flat_map.
  destruct (PyStr.contains "insult" _), (PyStr.contains "obscen" _),
    (PyStr.contains "sexual" _), (PyStr.contains "identity" _),
    (PyStr.contains "threat" _); reflexivity.
Qed.

Lemma marker_category_after_normalization_witness :
  exists raw,
    extract_second_attribute sample_obscenity = Ok (PStr raw) /\
    normalize_category (PStr raw) =
      match scan_categories (PyStr.lower "That is an OBSCENITY, clearly toxic.") with
      | [category] => PStr category
      | _ => PStr "none"
      end.
Proof.
  eapply marker_category_after_normalization; reflexivity.
Defined.

(** X8.  In the role-marker branch without a negative phrase the category
    helper never returns [none]: with none of the five stems in the body it
    returns the empty string. *)
Theorem marker_category_empty_without_stem
        (conv : pyval) (d : dict) (s body : string) :
  assistant_content_of conv = Ok (PDict d) ->
  dict_get d "content" = Some (PStr s) ->
  PyStr.search_ignorecase (is_it_toxic_pattern "no") s = false ->
  re_search_malformed (PStr s) = Ok (Some body) ->
  PyStr.contains "non-toxic" (PyStr.lower body) = false ->
  PyStr.contains "not toxic" (PyStr.lower body) = false ->
  (extract_second_attribute conv = Ok (PStr EmptyString) <->
   forall stem, In stem ["insult"; "obscen"; "sexual"; "identity"; "threat"] ->
                PyStr.contains stem (PyStr.lower body) = false) /\
  extract_second_attribute conv <> Ok (PStr "none").
Proof.
  intros Hc Hn Hno Hm Hnon Hnot. injection Hm as Hm.
  rewrite (extract_second_attribute_nested_eq conv d Hc),
    (second_attribute_nested_eq d s Hn), Hno, Hm.
  cbv zeta. rewrite Hnon, Hnot. cbn [orb bind].
  unfold scan_categories, category_stems, flat_map.
  destruct (PyStr.contains "insult" _) eqn:E1, (PyStr.contains "obscen" _) eqn:E2,
    (PyStr.contains "sexual" _) eqn:E3, (PyStr.contains "identity" _) eqn:E4,
    (PyStr.contains "threat" _) eqn:E5;
    (split; [split; [discriminate || (intros _ stem Hin; simpl in Hin;
                                      decompose [or] Hin; subst;
                                      (assumption || contradiction))
                    | intros H;
                      first [reflexivity
                            | rewrite (H "insult") in E1 by (simpl; auto); discriminate
                            | rewrite (H "obscen") in E2 by (simpl; auto); discriminate
                            | rewrite (H "sexual") in E3 by (simpl; auto); discriminate
                            | rewrite (H "identity") in E4 by (simpl; auto); discriminate
                            | rewrite (H "threat") in E5 by (simpl; auto 6); discriminate ] ]
            | discriminate]).
Qed.

Lemma marker_category_empty_without_stem_witness :
  (extract_second_attribute sample_toxic_no_stem = Ok (PStr EmptyString) <->
   forall stem, In stem ["insult"; "obscen"; "sexual"; "identity"; "threat"] ->
                PyStr.contains stem (PyStr.lower "This is toxic.") = false) /\
  extract_second_attribute sample_toxic_no_stem <> Ok (PStr "none").
Proof.
  eapply marker_category_empty_without_stem; reflexivity.
Defined.

Lemma dict_get_key (d : dict) (k : string) :
  In k (dict_keys d) -> exists v, dict_get d k = Some v.
Proof.
  induction d as [|[k' v'] rest IH]; simpl; [contradiction|].
  intros [-> | Hin].
  - rewrite String.eqb_refl. eauto.
  - destruct (String.eqb k k'); eauto.
Qed.

Lemma extract_second_attribute_raise_inv (conv : pyval) (e : exn) :
  extract_second_attribute conv = Raise e ->
  extract_first_attribute conv = Raise e.
Proof.
  unfold extract_second_attribute, extract_first_attribute.
  destruct (assistant_content_of conv) as [v|e']; [|intros H; exact H].
  cbn [bind]. destruct v; try discriminate.
  unfold second_attribute_nested, first_attribute_nested, dict_contains.
  assert (Hkeys : forall returned : option pyval,
             match returned with
             | Some v => Ok v
             | None => match dict_keys items with
                       | _ :: second_key :: _ => getitem_key (PDict items) second_key
                       | _ => Ok (PStr "none")
                       end
             end <> Raise e).
  { intros [v|]; [discriminate|].
    destruct (dict_keys items) as [|k1 [|k2 ks]] eqn:Ek; try discriminate.
    destruct (dict_get_key items k2) as (v & Hv);
      [rewrite Ek; simpl; auto|].
    cbn [getitem_key]. rewrite Hv. discriminate. }
  destruct (dict_get items "content") as [nested_content|] eqn:Hn.
  - cbn [getitem_key]. rewrite Hn. cbn [bind].
    destruct nested_content; cbn [re_search_ignorecase bind];
      try (intros H; exact H).
    cbn [re_search_malformed bind]. intros H. exfalso.
    destruct (PyStr.search_ignorecase (is_it_toxic_pattern "no") s);
      [discriminate|].
    destruct (option_map _ _); [|exact (Hkeys None H)].
    cbv zeta in H. destruct (_ || _) in H; discriminate.
  - cbn [bind]. intros H. exfalso. exact (Hkeys None H).
Qed.

(** X9.  Whenever the label comprehension of lines 115-116 ends well on an
    array, so does the category comprehension of lines 119-120 on it, with
    one category per label. *)
Theorem category_comprehension_cannot_fail (data : list pyval) (labels : list pyval) :
  mapM extract_first_attribute data = Ok labels ->
  exists categories,
    mapM extract_second_attribute data = Ok categories /\
    List.length categories = List.length labels.
Proof.
  revert labels. induction data as [|conv rest IH]; intros labels H.
  - injection H as <-. exists []. split; reflexivity.
  - cbn [mapM] in H. apply bind_ok_inv in H as (v & Hv & H).
    apply bind_ok_inv in H as (vs & Hvs & H). injection H as <-.
    destruct (IH vs Hvs) as (cs & Hcs & Hlen).
    destruct (extract_second_attribute conv) as [c|e] eqn:Hc.
    + exists (c :: cs). cbn [mapM]. rewrite Hc, Hcs. cbn [bind List.length].
      split; [reflexivity | congruence].
    + apply extract_second_attribute_raise_inv in Hc. congruence.
Qed.

Lemma category_comprehension_cannot_fail_witness :
  exists categories,
    mapM extract_second_attribute [sample_structured; sample_pattern_miss]
    = Ok categories /\
    List.length categories = List.length [PStr "yes"; PStr "assistant"].
Proof.
  apply category_comprehension_cannot_fail. reflexivity.
Defined.

Lemma append_assoc (a b c : string) : (a ++ b) ++ c = a ++ (b ++ c).
Proof. induction a as [|x a IH]; simpl; [reflexivity | rewrite IH; reflexivity]. Qed.

Lemma contains_prefix (a b s : string) :
  PyStr.contains (a ++ b) s = true -> PyStr.contains a s = true.
Proof.
  rewrite !contains_spec. intros (pre & post & ->).
  exists pre, (b ++ post). rewrite append_assoc. reflexivity.
Qed.

(** X10.  The stem [obscen] of line 94 finds the category [obscene] for a
    body that contains [obscene] and for one that contains [obscenity]. *)
Theorem obscen_stem_covers_both_spellings (body : string) :
  PyStr.contains "obscene" body = true \/ PyStr.contains "obscenity" body = true ->
  In "obscene" (scan_categories body).
Proof.
  intros H.
  assert (Hstem : PyStr.contains "obscen" body = true).
  { destruct H as [H|H];
      [apply (contains_prefix "obscen" "e") | apply (contains_prefix "obscen" "ity")];
      exact H. }
  unfold scan_categories, category_stems, flat_map. rewrite Hstem.
  destruct (PyStr.contains "insult" body); simpl; auto.
Qed.

Lemma obscen_stem_covers_both_spellings_witness :
  In "obscene" (scan_categories "this is plain obscenity and an insult").
Proof.
  apply obscen_stem_covers_both_spellings. right. reflexivity.
Defined.

(** ** Further properties of the normalisation pass *)

Lemma force_none_eq (allowed : list string) (s c : string) :
  In c allowed -> c <> "none" ->
  (force_none allowed (PStr s) = PStr c <-> s = c).
Proof.
  intros Hin Hc. unfold force_none, isin.
  destruct (existsb (String.eqb s) allowed) eqn:E; split.
  - intros [= ->]. reflexivity.
  - intros ->. reflexivity.
  - intros [= H]. congruence.
  - intros ->. exfalso.
    assert (existsb (String.eqb c) allowed = true)
      by (apply existsb_exists; exists c; split; [exact Hin | apply String.eqb_refl]).
    congruence.
Qed.

(** X11.  The pass gives the label [yes] exactly to the strings that
    lower-case to [yes], [no] exactly to those that lower-case to [no], and
    [none] to every other cell; the replacement of line 131 plays no part. *)
Theorem normalize_label_accepts (cell : pyval) :
  (normalize_label cell = PStr "yes" <->
   exists s, cell = PStr s /\ PyStr.lower s = "yes") /\
  (normalize_label cell = PStr "no" <->
   exists s, cell = PStr s /\ PyStr.lower s = "no") /\
  (normalize_label cell <> PStr "yes" -> normalize_label cell <> PStr "no" ->
   normalize_label cell = PStr "none").
Proof.
  split; [|split].
  - unfold normalize_label. rewrite replace_values_label_mapping.
    destruct cell; try (split; [discriminate | intros (s' & H & _); discriminate]).
    cbn [str_lower]. rewrite (force_none_eq allowed_labels _ "yes");
      [|simpl; auto | discriminate].
    split; [intros H; eauto | intros (s' & [= <-] & H); exact H].
  - unfold normalize_label. rewrite replace_values_label_mapping.
    destruct cell; try (split; [discriminate | intros (s' & H & _); discriminate]).
    cbn [str_lower]. rewrite (force_none_eq allowed_labels _ "no");
      [|simpl; auto | discriminate].
    split; [intros H; eauto | intros (s' & [= <-] & H); exact H].
  - intros Hy Hn. pose proof (normalize_label_is_label cell) as H.
    unfold is_label in H. simpl in H.
    destruct H as [H|[H|[H|[]]]]; congruence.
Qed.

(** X12.  The pass gives one of the five category names exactly to the
    strings that, once the quotes and square brackets are removed and the
    rest is lower-cased, are that name. *)
Theorem normalize_category_accepts (cell : pyval) (category : string) :
  In category allowed_categories ->
  (normalize_category cell = PStr category <->
   exists s, cell = PStr s /\
             PyStr.lower (PyStr.remove_chars stripped_chars s) = category).
Proof.
  intros Hin. unfold normalize_category.
  destruct cell; try (split; [simpl in Hin; simpl; intros [= <-]; intuition discriminate
                             | intros (s' & H & _); discriminate]).
  cbn [str_replace str_lower]. rewrite (force_none_eq allowed_categories _ category).
  - split; [intros H; eauto | intros (s' & [= <-] & H); exact H].
  - exact Hin.
  - simpl in Hin. intuition (subst; discriminate).
Qed.

Lemma normalize_category_accepts_witness :
  normalize_category (PStr "['Identity_Attack']") = PStr "identity_attack" <->
  exists s, PStr "['Identity_Attack']" = PStr s /\
            PyStr.lower (PyStr.remove_chars stripped_chars s) = "identity_attack".
Proof.
  apply normalize_category_accepts. simpl. auto 6.
Defined.

Lemma lower_chars (s : string) :
  list_ascii_of_string (PyStr.lower s) = map PyStr.lower_char (list_ascii_of_string s).
Proof. induction s as [|c s IH]; simpl; [reflexivity | rewrite IH; reflexivity]. Qed.

(** X13.  Labels are not stripped as categories are: a label holding a
    quote, a double quote or a square bracket becomes [none]. *)
Theorem label_with_quote_or_bracket_is_none (s : string) (c : ascii) :
  In c stripped_chars ->
  In c (list_ascii_of_string s) ->
  normalize_label (PStr s) = PStr "none".
Proof.
  intros Hc Hs.
  assert (Hl : In c (list_ascii_of_string (PyStr.lower s))).
  { rewrite lower_chars.
    replace c with (PyStr.lower_char c)
      by (simpl in Hc; decompose [or] Hc; subst; (reflexivity || contradiction)).
    apply in_map. exact Hs. }
  unfold normalize_label. rewrite replace_values_label_mapping.
  cbn [str_lower]. unfold force_none, isin.
  destruct (existsb (String.eqb (PyStr.lower s)) allowed_labels) eqn:E;
    [|reflexivity].
  exfalso. apply existsb_exists in E as (x & Hx & Heq).
  apply String.eqb_eq in Heq. subst x.
  simpl in Hx. decompose [or] Hx; clear Hx; try contradiction;
    match goal with E : _ = PyStr.lower s |- _ => rewrite <- E in Hl end;
    simpl in Hc; decompose [or] Hc; clear Hc; subst; try contradiction;
    cbv in Hl; intuition discriminate.
Qed.

Lemma label_with_quote_or_bracket_is_none_witness :
  normalize_label (PStr "'Yes'") = PStr "none".
Proof.
  apply (label_with_quote_or_bracket_is_none "'Yes'" "'"%char); simpl; auto.
Defined.

(** ** Further properties of [process_toxicity_data] and of the script *)

(** X14.  When extraction succeeds, the Llama array is not empty and the
    two arrays differ in length, line 125 raises [ValueError]: nothing is
    written. *)
Theorem length_mismatch_aborts (ok : list pyval -> bool) (df : DataFrame)
        (data_llama data_zephyr labels_llama labels_zephyr : list pyval) :
  mapM extract_first_attribute data_llama = Ok labels_llama ->
  mapM extract_first_attribute data_zephyr = Ok labels_zephyr ->
  data_llama <> [] ->
  List.length data_llama <> List.length data_zephyr ->
  process_toxicity_data ok df data_llama data_zephyr = Raise ValueError.
Proof.
  intros Hfl Hfz Hne Hlen. unfold process_toxicity_data, toxic_df_of.
  rewrite Hfl, Hfz. cbn [bind].
  destruct (mapM extract_second_attribute data_llama) as [sl|e] eqn:Hsl.
  2:{ exfalso. apply mapM_raise_inv in Hsl as (conv & Hin & Hconv).
      apply extract_second_attribute_raise_inv in Hconv.
      destruct (mapM_ok_each _ _ _ _ Hfl Hin) as (v & Hv). congruence. }
  destruct (mapM extract_second_attribute data_zephyr) as [sz|e] eqn:Hsz.
  2:{ exfalso. apply mapM_raise_inv in Hsz as (conv & Hin & Hconv).
      apply extract_second_attribute_raise_inv in Hconv.
      destruct (mapM_ok_each _ _ _ _ Hfz Hin) as (v & Hv). congruence. }
  cbn [bind].
  pose proof (mapM_ok_length _ _ _ Hfl) as Lfl.
  pose proof (mapM_ok_length _ _ _ Hfz) as Lfz.
  pose proof (mapM_ok_length _ _ _ Hsl) as Lsl.
  pose proof (mapM_ok_length _ _ _ Hsz) as Lsz.
  rewrite build_toxic_df_eq by congruence.
  replace (Nat.eqb (List.length labels_llama) (List.length labels_zephyr)) with false
    by (symmetry; apply Nat.eqb_neq; congruence).
  replace (Nat.eqb (List.length labels_llama) 0) with false
    by (symmetry; apply Nat.eqb_neq; rewrite Lfl; destruct data_llama;
        [contradiction | discriminate]).
  reflexivity.
Qed.

Lemma length_mismatch_aborts_witness :
  process_toxicity_data any_column sample_table
    [sample_structured; sample_no] [sample_structured] = Raise ValueError.
Proof.
  eapply length_mismatch_aborts;
    [reflexivity | reflexivity | discriminate | simpl; lia].
Defined.

Lemma merge_columns_stable (df : DataFrame) (zl zc ll lc : list pyval) :
  index_len df <> 0 ->
  merge_columns df zl zc ll lc =
  {| index_len := index_len df;
     columns :=
       assign "Llama Vanilla_E Category" (align (index_len df) lc)
         (assign "Llama Vanilla_E Label" (align (index_len df) ll)
            (assign "Zephyr Vanilla_E Category" (align (index_len df) zc)
               (assign "Zephyr Vanilla_E Label" (align (index_len df) zl)
                  (columns df)))) |}.
Proof.
  intros H. unfold merge_columns.
  rewrite (setitem_series_stable df) by auto.
  rewrite (setitem_series_stable _ "Zephyr Vanilla_E Category") by auto.
  rewrite (setitem_series_stable _ "Llama Vanilla_E Label") by auto.
  rewrite (setitem_series_stable _ "Llama Vanilla_E Category") by auto.
  reflexivity.
Qed.

(** X17.  A run on a table with rows keeps the number of rows and leaves
    every column unchanged but those named like the four derived columns. *)
Theorem other_columns_untouched (ok : list pyval -> bool) (df out : DataFrame)
        (data_llama data_zephyr : list pyval) :
  index_len df <> 0 ->
  process_toxicity_data ok df data_llama data_zephyr = Ok out ->
  index_len out = index_len df /\
  forall name, ~ In name derived_columns -> getitem out name = getitem df name.
Proof.
  intros Hidx H.
  apply process_toxicity_data_ok_inv in H
    as (fl & sl & fz & sz & _ & _ & _ & _ & _ & ->).
  rewrite merge_columns_stable by exact Hidx. split; [reflexivity|].
  intros name Hname. unfold getitem. cbn [columns].
  unfold derived_columns in Hname.
  rewrite !lookup_assign_other; [reflexivity|..];
    apply String.eqb_neq; intros <-; apply Hname; simpl; auto 6.
Qed.

Lemma other_columns_untouched_witness :
  index_len sample_three_rows_out = index_len sample_three_rows /\
  forall name, ~ In name derived_columns ->
               getitem sample_three_rows_out name = getitem sample_three_rows name.
Proof.
  apply (other_columns_untouched any_column sample_three_rows sample_three_rows_out
           [sample_yes_threat; sample_insult_threat]
           [sample_pattern_miss; sample_not_toxic]);
    [discriminate | reflexivity].
Defined.

Lemma align_truncates (n : nat) (cells : list pyval) :
  n <= List.length cells -> align n cells = firstn n cells.
Proof.
  intros H. unfold align. replace (n - List.length cells) with 0 by lia.
  apply app_nil_r.
Qed.

(** X18.  When the arrays have more records than the table has rows, the
    derived columns hold the values of the first records, one per row; the
    records after them are dropped without an error. *)
Theorem surplus_records_are_dropped (ok : list pyval -> bool) (df out : DataFrame)
        (data_llama data_zephyr : list pyval) :
  index_len df <> 0 ->
  index_len df <= List.length data_zephyr ->
  List.length data_llama = List.length data_zephyr ->
  process_toxicity_data ok df data_llama data_zephyr = Ok out ->
  exists fl sl fz sz,
    mapM extract_first_attribute data_llama = Ok fl /\
    mapM extract_second_attribute data_llama = Ok sl /\
    mapM extract_first_attribute data_zephyr = Ok fz /\
    mapM extract_second_attribute data_zephyr = Ok sz /\
    getitem out "Zephyr Vanilla_E Label"
      = Ok (firstn (index_len df) (map normalize_label fz)) /\
    getitem out "Zephyr Vanilla_E Category"
      = Ok (firstn (index_len df) (map normalize_category sz)) /\
    getitem out "Llama Vanilla_E Label"
      = Ok (firstn (index_len df) (map normalize_label fl)) /\
    getitem out "Llama Vanilla_E Category"
      = Ok (firstn (index_len df) (map normalize_category sl)).
Proof.
  intros Hidx Hrows Hlen H.
  apply process_toxicity_data_ok_inv in H
    as (fl & sl & fz & sz & Hfl & Hsl & Hfz & Hsz & _ & ->).
  pose proof (mapM_ok_length _ _ _ Hfl) as Lfl.
  pose proof (mapM_ok_length _ _ _ Hfz) as Lfz.
  pose proof (mapM_ok_length _ _ _ Hsl) as Lsl.
  pose proof (mapM_ok_length _ _ _ Hsz) as Lsz.
  exists fl, sl, fz, sz. repeat (split; [assumption|]).
  rewrite !widen_same_length by congruence.
  pose proof (merge_columns_lookup df (List.length data_zephyr)
                (map normalize_label fz) (map normalize_category sz)
                (map normalize_label fl) (map normalize_category sl)) as Hm.
  rewrite !length_map in Hm.
  assert (Lfl' : List.length fl = List.length data_zephyr) by congruence.
  assert (Lsl' : List.length sl = List.length data_zephyr) by congruence.
  specialize (Hm Lfz Lsz Lfl' Lsl'). cbv zeta in Hm.
  destruct Hm as (_ & H1 & H2 & H3 & H4).
  unfold derived_index in H1, H2, H3, H4.
  apply Nat.eqb_neq in Hidx. rewrite Hidx in H1, H2, H3, H4.
  rewrite align_truncates in H1, H2, H3, H4 by (rewrite length_map; lia).
  auto.
Qed.

Lemma surplus_records_are_dropped_witness :
  exists fl sl fz sz,
    mapM extract_first_attribute [sample_yes_threat; sample_no] = Ok fl /\
    mapM extract_second_attribute [sample_yes_threat; sample_no] = Ok sl /\
    mapM extract_first_attribute [sample_no; sample_yes_threat] = Ok fz /\
    mapM extract_second_attribute [sample_no; sample_yes_threat] = Ok sz /\
    getitem sample_table_out "Zephyr Vanilla_E Label"
      = Ok (firstn (index_len sample_table) (map normalize_label fz)) /\
    getitem sample_table_out "Zephyr Vanilla_E Category"
      = Ok (firstn (index_len sample_table) (map normalize_category sz)) /\
    getitem sample_table_out "Llama Vanilla_E Label"
      = Ok (firstn (index_len sample_table) (map normalize_label fl)) /\
    getitem sample_table_out "Llama Vanilla_E Category"
      = Ok (firstn (index_len sample_table) (map normalize_category sl)).
Proof.
  apply (surplus_records_are_dropped any_column sample_table sample_table_out
           [sample_yes_threat; sample_no] [sample_no; sample_yes_threat]);
    [discriminate | simpl; lia | reflexivity | reflexivity].
Defined.

Lemma assign_assign_same (name : string) (cells cells' : list pyval)
      (cols : list (string * list pyval)) :
  assign name cells (assign name cells' cols) = assign name cells cols.
Proof.
  induction cols as [|[k old] rest IH]; cbn [assign].
  - rewrite String.eqb_refl. reflexivity.
  - destruct (String.eqb k name) eqn:E; cbn [assign]; rewrite E;
      [reflexivity | rewrite IH; reflexivity].
Qed.

(** Two assignments to different columns commute when the column
    assigned last is already there. *)
Lemma assign_comm (n m : string) (c d : list pyval)
      (cols : list (string * list pyval)) :
  n <> m -> lookup n cols <> None ->
  assign n c (assign m d cols) = assign m d (assign n c cols).
Proof.
  intros Hnm. induction cols as [|[k old] rest IH]; cbn [assign lookup].
  - intros H. contradiction.
  - destruct (String.eqb_spec k n) as [->|Hkn].
    + intros _. destruct (String.eqb_spec n m) as [E|_]; [contradiction|].
      cbn [assign]. rewrite String.eqb_refl.
      destruct (String.eqb_spec n m) as [E|_]; [contradiction | reflexivity].
    + intros H. destruct (String.eqb_spec k m) as [->|Hkm]; cbn [assign].
      * destruct (String.eqb_spec m n) as [E|_]; [congruence|].
        rewrite String.eqb_refl. reflexivity.
      * destruct (String.eqb_spec k n) as [E|_]; [contradiction|].
        destruct (String.eqb_spec k m) as [E|_]; [contradiction|].
        rewrite IH by exact H. reflexivity.
Qed.

Lemma lookup_assign_present (n m : string) (c : list pyval)
      (cols : list (string * list pyval)) :
  lookup n cols <> None -> lookup n (assign m c cols) <> None.
Proof.
  intros H. destruct (String.eqb_spec m n) as [->|Hne].
  - rewrite lookup_assign_same. discriminate.
  - rewrite lookup_assign_other by (apply String.eqb_neq; exact Hne). exact H.
Qed.

Lemma lookup_assign_same_present (n : string) (c : list pyval)
      (cols : list (string * list pyval)) :
  lookup n (assign n c cols) <> None.
Proof. rewrite lookup_assign_same. discriminate. Qed.

(** Four assignments to four different columns overwrite four earlier
    ones to the same columns. *)
Lemma assign_four_overwrite (n1 n2 n3 n4 : string)
      (a1 a2 a3 a4 b1 b2 b3 b4 : list pyval) (cols : list (string * list pyval)) :
  n1 <> n2 -> n1 <> n3 -> n1 <> n4 -> n2 <> n3 -> n2 <> n4 -> n3 <> n4 ->
  assign n4 b4 (assign n3 b3 (assign n2 b2 (assign n1 b1
    (assign n4 a4 (assign n3 a3 (assign n2 a2 (assign n1 a1 cols)))))))
  = assign n4 b4 (assign n3 b3 (assign n2 b2 (assign n1 b1 cols))).
Proof.
  intros H12 H13 H14 H23 H24 H34.
  rewrite (assign_comm n1 n4), (assign_comm n1 n3), (assign_comm n1 n2),
    assign_assign_same;
    auto using lookup_assign_present, lookup_assign_same_present.
  rewrite (assign_comm n2 n4), (assign_comm n2 n3), assign_assign_same;
    auto using lookup_assign_present, lookup_assign_same_present.
  rewrite (assign_comm n3 n4), assign_assign_same;
    auto using lookup_assign_present, lookup_assign_same_present.
  rewrite assign_assign_same. reflexivity.
Qed.

Lemma merge_columns_overwrite (df : DataFrame)
      (a1 a2 a3 a4 b1 b2 b3 b4 : list pyval) :
  index_len df <> 0 ->
  merge_columns (merge_columns df a1 a2 a3 a4) b1 b2 b3 b4
  = merge_columns df b1 b2 b3 b4.
Proof.
  intros H. rewrite (merge_columns_stable df a1) by exact H.
  rewrite merge_columns_stable by exact H.
  rewrite (merge_columns_stable df b1) by exact H.
  cbn [index_len columns]. f_equal.
  apply assign_four_overwrite; discriminate.
Qed.

Lemma process_toxicity_data_index (ok : list pyval -> bool) (df out : DataFrame)
      (data_llama data_zephyr : list pyval) :
  index_len df <> 0 ->
  process_toxicity_data ok df data_llama data_zephyr = Ok out ->
  index_len out = index_len df.
Proof.
  intros Hidx H.
  apply process_toxicity_data_ok_inv in H
    as (fl & sl & fz & sz & _ & _ & _ & _ & _ & ->).
  rewrite merge_columns_stable by exact Hidx. reflexivity.
Qed.

(** On the table that a run has written, a further run does what it
    does on the table the first run read. *)
Lemma process_after_process (ok : list pyval -> bool) (df df_1 : DataFrame)
      (llama_1 zephyr_1 llama_2 zephyr_2 : list pyval) :
  index_len df <> 0 ->
  process_toxicity_data ok df llama_1 zephyr_1 = Ok df_1 ->
  process_toxicity_data ok df_1 llama_2 zephyr_2
  = process_toxicity_data ok df llama_2 zephyr_2.
Proof.
  intros Hidx H1.
  apply process_toxicity_data_ok_inv in H1
    as (fl & sl & fz & sz & _ & _ & _ & _ & _ & ->).
  unfold process_toxicity_data.
  destruct (toxic_df_of ok llama_2 zephyr_2) as [toxic_df|e] eqn:Ht;
    [|reflexivity].
  apply toxic_df_of_ok_inv in Ht
    as (fl' & sl' & fz' & sz' & _ & _ & _ & _ & _ & ->).
  cbn [bind]. rewrite !combine_eq.
  rewrite merge_columns_overwrite by exact Hidx. reflexivity.
Qed.

(** X19.  Running the routine again with the same arrays on the file it
    wrote gives the same table back, when that file is read back as it was
    written. *)
Theorem rerun_is_idempotent (ok : list pyval -> bool)
        (reread : DataFrame -> DataFrame) (df out : DataFrame)
        (data_llama data_zephyr : list pyval) :
  index_len df <> 0 ->
  process_toxicity_data ok df data_llama data_zephyr = Ok out ->
  reread out = out ->
  process_toxicity_data ok (reread out) data_llama data_zephyr = Ok out.
Proof.
  intros Hidx H Hread. rewrite Hread.
  rewrite (process_after_process ok df out data_llama data_zephyr) by assumption.
  exact H.
Qed.

Lemma rerun_is_idempotent_witness :
  process_toxicity_data any_column ((fun d => d) sample_table_out)
    [sample_yes_threat] [sample_no]
  = Ok sample_table_out.
Proof.
  apply (rerun_is_idempotent any_column (fun d => d) sample_table);
    [discriminate | reflexivity | reflexivity].
Defined.

(** X20.  When the first three calls of lines 151-153 end well on a table
    with rows and each file they write is read back as it was written, the
    script does what its last call alone does on the first table: the
    derived columns of the three earlier variants are lost. *)
Theorem script_keeps_last_variant (ok : list pyval -> bool)
        (reread : DataFrame -> DataFrame) (df df_1 df_2 df_3 : DataFrame)
        (v_e v cot cot_e : list pyval * list pyval) :
  index_len df <> 0 ->
  process_toxicity_data ok df (fst v_e) (snd v_e) = Ok df_1 ->
  reread df_1 = df_1 ->
  process_toxicity_data ok df_1 (fst v) (snd v) = Ok df_2 ->
  reread df_2 = df_2 ->
  process_toxicity_data ok df_2 (fst cot) (snd cot) = Ok df_3 ->
  reread df_3 = df_3 ->
  script ok reread df v_e v cot cot_e
  = process_toxicity_data ok df (fst cot_e) (snd cot_e).
Proof.
  intros Hidx H1 R1 H2 R2 H3 R3. unfold script.
  rewrite H1. cbn [bind]. rewrite R1, H2. cbn [bind]. rewrite R2, H3.
  cbn [bind]. rewrite R3.
  assert (I1 : index_len df_1 <> 0)
    by (rewrite (process_toxicity_data_index ok df df_1 _ _ Hidx H1); exact Hidx).
  assert (I2 : index_len df_2 <> 0)
    by (rewrite (process_toxicity_data_index ok df_1 df_2 _ _ I1 H2); exact I1).
  rewrite (process_after_process ok df_2 df_3 _ _ _ _ I2 H3).
  rewrite (process_after_process ok df_1 df_2 _ _ _ _ I1 H2).
  apply (process_after_process ok df df_1 _ _ _ _ Hidx H1).
Qed.

Lemma script_keeps_last_variant_witness :
  script any_column (fun d => d) sample_table
    ([sample_no], [sample_no])
    ([sample_structured], [sample_disagree])
    ([sample_insult_threat], [sample_not_toxic])
    ([sample_yes_threat], [sample_no])
  = process_toxicity_data any_column sample_table
      (fst ([sample_yes_threat], [sample_no]))
      (snd ([sample_yes_threat], [sample_no])).
Proof.
  eapply (script_keeps_last_variant any_column (fun d => d) sample_table);
    [discriminate | vm_compute; reflexivity | reflexivity
     | vm_compute; reflexivity | reflexivity
     | vm_compute; reflexivity | reflexivity].
Defined.

Lemma row_correspondence_fresh_columns_witness :
  exists fl sl fz sz,
    Forall2 (fun conv v => extract_first_attribute conv = Ok v) [sample_yes_threat] fl /\
    Forall2 (fun conv v => extract_second_attribute conv = Ok v) [sample_yes_threat] sl /\
    Forall2 (fun conv v => extract_first_attribute conv = Ok v) [sample_no] fz /\
    Forall2 (fun conv v => extract_second_attribute conv = Ok v) [sample_no] sz /\
    sample_table_out
    = {| index_len := index_len sample_table;
         columns := (columns sample_table ++
                     [("Zephyr Vanilla_E Label", map normalize_label fz);
                      ("Zephyr Vanilla_E Category", map normalize_category sz);
                      ("Llama Vanilla_E Label", map normalize_label fl);
                      ("Llama Vanilla_E Category", map normalize_category sl)])%list
      |}.
Proof.
  apply (row_correspondence_fresh_columns any_column sample_table sample_table_out
           [sample_yes_threat] [sample_no]);
    [reflexivity | reflexivity | | reflexivity].
  intros name Hin. simpl in Hin. decompose [or] Hin; subst;
    (reflexivity || contradiction).
Defined.

Lemma process_toxicity_data_ok_witness :
  process_toxicity_data any_column sample_table [sample_yes_threat] [sample_no]
  = Ok (merge_columns sample_table
          (map normalize_label [PStr "No"]) (map normalize_category [PStr "[]"])
          (map normalize_label [PStr "Yes"])
          (map normalize_category [PStr "['Threat']"])).
Proof.
  apply process_toxicity_data_ok; reflexivity.
Defined.
